(** * PrepPilot AI: the quiz session, its countdown and the Gemini service

    A shallow embedding of [App.tsx], [types.ts] and
    [services/geminiService.ts].

    - JavaScript values that come out of [JSON.parse] are the type [JSON];
      objects are finite maps from property names to values.
    - The component state is the record [AppState]: the [QuizState] held by
      [useState], the two UI flags [selectedOption] and [isAnswered], and the
      promise an [async] handler is waiting on, with the values its closure
      captured.
    - Every handler is a function on [AppState]; an [async] handler is split
      at its [await] into the part that runs on the click and the part that
      runs when the promise settles.
    - User actions, timer callbacks and settled promises are the [Event]s;
      [dispatch] applies the handler an event is wired to, when the rendered
      page offers that event at all. Events are taken one at a time, each on
      the state the page was last rendered for, as React does for listeners
      and for an interval that is re-armed after every render. *)

From stdpp Require Import gmap strings list pretty.
From Stdlib Require Import ZArith Ascii.

Local Open Scope string_scope.
Local Open Scope Z_scope.

(** ** JavaScript values *)

(** The values [JSON.parse] produces. Numbers are the integers: the only
    number the response schemas declare is [correctAnswer], of type INTEGER,
    and the code compares it with an option index only. Strings are sequences
    of 8-bit code units. *)
#[warnings="-register-all"] Inductive JSON : Type :=
| JNull
| JBool (b : bool)
| JNum (n : Z)
| JStr (s : string)
| JArr (items : list JSON)
| JObj (fields : gmap string JSON).

(** [!!v]: JavaScript truthiness. *)
Definition truthy (v : JSON) : bool :=
  match v with
  | JNull => false
  | JBool b => b
  | JNum n => negb (n =? 0)
  | JStr s => negb (String.eqb s "")
  | JArr _ | JObj _ => true
  end.

(** [text || dflt] for a [string | undefined]: the empty string is falsy. *)
Definition or_text (text : option string) (dflt : string) : string :=
  match text with
  | Some s => if String.eqb s "" then dflt else s
  | None => dflt
  end.

(** [v || dflt] where [v] may be [undefined]. *)
Definition or_value (v : option JSON) (dflt : JSON) : JSON :=
  match v with
  | Some x => if truthy x then x else dflt
  | None => dflt
  end.

(** [data.key] for a key that names no built-in member of any value, as
    "sections" does. [None] is the TypeError raised on [null]; [Some None]
    is [undefined]. *)
Definition get_data_property (data : JSON) (key : string)
  : option (option JSON) :=
  match data with
  | JNull => None
  | JObj fields => Some (fields !! key)
  | JBool _ | JNum _ | JStr _ | JArr _ => Some None
  end.

(** Own enumerable properties of an array-like: index keys "0", "1", ... *)
Definition index_properties (items : list JSON) : gmap string JSON :=
  list_to_map (imap (fun (i : nat) (x : JSON) => (pretty i, x)) items).

Fixpoint code_units (s : string) : list JSON :=
  match s with
  | EmptyString => []
  | String c rest => JStr (String c EmptyString) :: code_units rest
  end.

(** The properties an object spread [{...q}] copies. *)
Definition spread (q : JSON) : gmap string JSON :=
  match q with
  | JObj fields => fields
  | JArr items => index_properties items
  | JStr s => index_properties (code_units s)
  | JNull | JBool _ | JNum _ => ∅
  end.

(** An [Error] object, as far as the code reads it: [error.message]. *)
Record JSError : Type := { message : string }.

(** How a promise settles. *)
Inductive Settled (A : Type) : Type :=
| Fulfilled (a : A)
| RejectedWith (e : JSError).
Arguments Fulfilled {A} a.
Arguments RejectedWith {A} e.

(** The part of the JavaScript runtime the service calls: [JSON.parse], with
    [None] for a thrown SyntaxError, and what it answers on the two literals
    the code passes it as defaults. *)
Class JSONRuntime : Type := {
  JSON_parse : string -> option JSON;
  JSON_parse_empty_object : JSON_parse "{}" = Some (JObj ∅);
  JSON_parse_empty_array : JSON_parse "[]" = Some (JArr []);
}.

(** [String.prototype.trim]: the white space and line terminators among the
    8-bit code units are TAB, LF, VT, FF, CR, SP and NBSP. *)
Definition is_white_space (c : ascii) : bool :=
  let n := nat_of_ascii c in
  ((9 <=? n)%nat && (n <=? 13)%nat) || (n =? 32)%nat || (n =? 160)%nat.

Fixpoint trim_start (s : string) : string :=
  match s with
  | EmptyString => EmptyString
  | String c rest => if is_white_space c then trim_start rest else s
  end.

Fixpoint trim_end (s : string) : string :=
  match s with
  | EmptyString => EmptyString
  | String c rest =>
      match trim_end rest with
      | EmptyString => if is_white_space c then EmptyString
                       else String c EmptyString
      | kept => String c kept
      end
  end.

Definition trim (s : string) : string := trim_end (trim_start s).

(** ** The response of [ai.models.generateContent] *)

(** The [web] member of a grounding chunk; both fields are optional in the
    SDK's declaration. *)
Record GroundingChunkWeb : Type := { title : option string; uri : option string }.
Record GroundingChunk : Type := { web : option GroundingChunkWeb }.
Record GroundingMetadata : Type :=
  { groundingChunks : option (list GroundingChunk) }.
Record Candidate : Type := { groundingMetadata : option GroundingMetadata }.
Record GenerateContentResponse : Type :=
  { text : option string; candidates : option (list Candidate) }.

(** [!!web?.uri] *)
Definition has_uri (w : option GroundingChunkWeb) : bool :=
  match w with
  | Some {| uri := Some u |} => negb (String.eqb u "")
  | _ => false
  end.

(** ** types.ts *)

(** A [Question] at run time is the object [generateQuestions] builds,
    [{...q, id}]: a finite map from property names to values. *)
Abbreviation Question := (gmap string JSON).

Inductive Status : Type :=
| idle | fetching_sections | selecting_section | generating | active | completed.

#[global] Instance Status_eq_dec : EqDecision Status.
Proof. solve_decision. Defined.

(** One slot of [answers : (number | null)[]]: [null], an option index, or
    the hole an assignment past the end of the array leaves behind. *)
Inductive Answer : Type :=
| unanswered
| chosen (option_index : nat)
| hole.

(** [QuizState]. [sections] and [selectedSection] are declared [string[]]
    and [string | null]; they hold what the response carried, which nothing
    checks, so they are [JSON] values here ([JNull] is [null]). [error] is an
    optional member. *)
Record QuizState : Type := {
  examName : string;
  sections : JSON;
  sources : list GroundingChunkWeb;
  selectedSection : JSON;
  questionCount : Z;
  timeRemaining : Z;
  isTimerRunning : bool;
  questions : list Question;
  currentQuestionIndex : nat;
  score : Z;
  answers : list Answer;
  status : Status;
  error : option string
}.

(** [{...prev, field: v}], one setter per field. *)
Definition set_examName (v : string) (prev : QuizState) : QuizState :=
  {| examName := v; sections := sections prev; sources := sources prev;
     selectedSection := selectedSection prev;
     questionCount := questionCount prev;
     timeRemaining := timeRemaining prev;
     isTimerRunning := isTimerRunning prev; questions := questions prev;
     currentQuestionIndex := currentQuestionIndex prev; score := score prev;
     answers := answers prev; status := status prev; error := error prev |}.

Definition set_sections (v : JSON) (prev : QuizState) : QuizState :=
  {| examName := examName prev; sections := v; sources := sources prev;
     selectedSection := selectedSection prev;
     questionCount := questionCount prev;
     timeRemaining := timeRemaining prev;
     isTimerRunning := isTimerRunning prev; questions := questions prev;
     currentQuestionIndex := currentQuestionIndex prev; score := score prev;
     answers := answers prev; status := status prev; error := error prev |}.

Definition set_sources (v : list GroundingChunkWeb) (prev : QuizState) : QuizState :=
  {| examName := examName prev; sections := sections prev; sources := v;
     selectedSection := selectedSection prev;
     questionCount := questionCount prev;
     timeRemaining := timeRemaining prev;
     isTimerRunning := isTimerRunning prev; questions := questions prev;
     currentQuestionIndex := currentQuestionIndex prev; score := score prev;
     answers := answers prev; status := status prev; error := error prev |}.

Definition set_selectedSection (v : JSON) (prev : QuizState) : QuizState :=
  {| examName := examName prev; sections := sections prev;
     sources := sources prev; selectedSection := v;
     questionCount := questionCount prev;
     timeRemaining := timeRemaining prev;
     isTimerRunning := isTimerRunning prev; questions := questions prev;
     currentQuestionIndex := currentQuestionIndex prev; score := score prev;
     answers := answers prev; status := status prev; error := error prev |}.

Definition set_questionCount (v : Z) (prev : QuizState) : QuizState :=
  {| examName := examName prev; sections := sections prev;
     sources := sources prev; selectedSection := selectedSection prev;
     questionCount := v; timeRemaining := timeRemaining prev;
     isTimerRunning := isTimerRunning prev; questions := questions prev;
     currentQuestionIndex := currentQuestionIndex prev; score := score prev;
     answers := answers prev; status := status prev; error := error prev |}.

Definition set_timeRemaining (v : Z) (prev : QuizState) : QuizState :=
  {| examName := examName prev; sections := sections prev;
     sources := sources prev; selectedSection := selectedSection prev;
     questionCount := questionCount prev; timeRemaining := v;
     isTimerRunning := isTimerRunning prev; questions := questions prev;
     currentQuestionIndex := currentQuestionIndex prev; score := score prev;
     answers := answers prev; status := status prev; error := error prev |}.

Definition set_isTimerRunning (v : bool) (prev : QuizState) : QuizState :=
  {| examName := examName prev; sections := sections prev;
     sources := sources prev; selectedSection := selectedSection prev;
     questionCount := questionCount prev;
     timeRemaining := timeRemaining prev; isTimerRunning := v;
     questions := questions prev;
     currentQuestionIndex := currentQuestionIndex prev; score := score prev;
     answers := answers prev; status := status prev; error := error prev |}.

Definition set_questions (v : list Question) (prev : QuizState) : QuizState :=
  {| examName := examName prev; sections := sections prev;
     sources := sources prev; selectedSection := selectedSection prev;
     questionCount := questionCount prev;
     timeRemaining := timeRemaining prev;
     isTimerRunning := isTimerRunning prev; questions := v;
     currentQuestionIndex := currentQuestionIndex prev; score := score prev;
     answers := answers prev; status := status prev; error := error prev |}.

Definition set_currentQuestionIndex (v : nat) (prev : QuizState) : QuizState :=
  {| examName := examName prev; sections := sections prev;
     sources := sources prev; selectedSection := selectedSection prev;
     questionCount := questionCount prev;
     timeRemaining := timeRemaining prev;
     isTimerRunning := isTimerRunning prev; questions := questions prev;
     currentQuestionIndex := v; score := score prev;
     answers := answers prev; status := status prev; error := error prev |}.

Definition set_score (v : Z) (prev : QuizState) : QuizState :=
  {| examName := examName prev; sections := sections prev;
     sources := sources prev; selectedSection := selectedSection prev;
     questionCount := questionCount prev;
     timeRemaining := timeRemaining prev;
     isTimerRunning := isTimerRunning prev; questions := questions prev;
     currentQuestionIndex := currentQuestionIndex prev; score := v;
     answers := answers prev; status := status prev; error := error prev |}.

Definition set_answers (v : list Answer) (prev : QuizState) : QuizState :=
  {| examName := examName prev; sections := sections prev;
     sources := sources prev; selectedSection := selectedSection prev;
     questionCount := questionCount prev;
     timeRemaining := timeRemaining prev;
     isTimerRunning := isTimerRunning prev; questions := questions prev;
     currentQuestionIndex := currentQuestionIndex prev; score := score prev;
     answers := v; status := status prev; error := error prev |}.

Definition set_status (v : Status) (prev : QuizState) : QuizState :=
  {| examName := examName prev; sections := sections prev;
     sources := sources prev; selectedSection := selectedSection prev;
     questionCount := questionCount prev;
     timeRemaining := timeRemaining prev;
     isTimerRunning := isTimerRunning prev; questions := questions prev;
     currentQuestionIndex := currentQuestionIndex prev; score := score prev;
     answers := answers prev; status := v; error := error prev |}.

Definition set_error (v : option string) (prev : QuizState) : QuizState :=
  {| examName := examName prev; sections := sections prev;
     sources := sources prev; selectedSection := selectedSection prev;
     questionCount := questionCount prev;
     timeRemaining := timeRemaining prev;
     isTimerRunning := isTimerRunning prev; questions := questions prev;
     currentQuestionIndex := currentQuestionIndex prev; score := score prev;
     answers := answers prev; status := status prev; error := v |}.

(** ** services/geminiService.ts *)

Module geminiService.

Record SyllabusInfo : Type :=
  { sections : JSON; sources : list GroundingChunkWeb }.

Definition fallback_sections : JSON :=
  JArr [JStr "General Knowledge"; JStr "Core Concepts";
        JStr "Advanced Topics"; JStr "Practice Set"].

Definition generation_error : JSError :=
  {| message := "Failed to generate questions. Please try again." |}.

(** [response.candidates?.[0]?.groundingMetadata?.groundingChunks
      ?.map(chunk => chunk.web).filter(web => !!web?.uri) || []] *)
Definition grounding_sources (response : GenerateContentResponse)
  : list GroundingChunkWeb :=
  match
    all ← candidates response;
    first ← head all;
    metadata ← groundingMetadata first;
    groundingChunks metadata
  with
  | Some chunks =>
      omap (fun w => if has_uri w then w else None) (map web chunks)
  | None => []
  end.

Section with_runtime.
Context {runtime : JSONRuntime}.

(** [getExamSections]. [api] is how the awaited
    [ai.models.generateContent] call settles; the request (model, prompt
    built from [examName], schema) only reaches the remote service. The
    [try] body is in the option monad: [None] is a thrown exception. *)
Definition getExamSections (examName : string)
    (api : Settled GenerateContentResponse) : Settled SyllabusInfo :=
  match api with
  | RejectedWith e => RejectedWith e
  | Fulfilled response =>
      let sources := grounding_sources response in
      match
        data ← JSON_parse (or_text (text response) "{}");
        data_sections ← get_data_property data "sections";
        Some {| sections := or_value data_sections fallback_sections;
                sources := take 3 sources |}
      with
      | Some info => Fulfilled info
      | None => Fulfilled {| sections := fallback_sections; sources := [] |}
      end
  end.

(** [generateQuestions]. [questionsData.map] exists only on an array;
    on every other value the call raises a TypeError inside the [try]. *)
Definition generateQuestions (examName : string) (count : Z)
    (section : JSON) (api : Settled GenerateContentResponse)
  : Settled (list Question) :=
  match api with
  | RejectedWith e => RejectedWith e
  | Fulfilled response =>
      match JSON_parse (or_text (text response) "[]") with
      | Some (JArr questionsData) =>
          Fulfilled
            (imap (fun (index : nat) (q : JSON) =>
                     <["id" := JStr ("q-" +:+ pretty index)]> (spread q))
                  questionsData)
      | Some _ | None => RejectedWith generation_error
      end
  end.
End with_runtime.

End geminiService.

(** ** App.tsx *)

(** The promise an [async] handler awaits, with what its closure holds of
    the [state] it was called in. *)
Inductive InFlight : Type :=
| awaiting_getExamSections (examName : string)
| awaiting_generateQuestions (examName : string) (questionCount : Z)
                             (selectedSection : JSON).

(** The component: [state], [selectedOption], [isAnswered] are the three
    [useState] cells; [in_flight] is the awaited promise, if any. *)
Record AppState : Type := {
  state : QuizState;
  selectedOption : option nat;
  isAnswered : bool;
  in_flight : option InFlight
}.

(** [setState(f)] *)
Definition setState (f : QuizState -> QuizState) (app : AppState) : AppState :=
  {| state := f (state app); selectedOption := selectedOption app;
     isAnswered := isAnswered app; in_flight := in_flight app |}.

Definition setSelectedOption (v : option nat) (app : AppState) : AppState :=
  {| state := state app; selectedOption := v;
     isAnswered := isAnswered app; in_flight := in_flight app |}.

Definition setIsAnswered (v : bool) (app : AppState) : AppState :=
  {| state := state app; selectedOption := selectedOption app;
     isAnswered := v; in_flight := in_flight app |}.

Definition set_in_flight (v : option InFlight) (app : AppState) : AppState :=
  {| state := state app; selectedOption := selectedOption app;
     isAnswered := isAnswered app; in_flight := v |}.

(** The object literal of [useState<QuizState>] and of [resetQuiz]. *)
Definition initial_state : QuizState :=
  {| examName := ""; sections := JArr []; sources := [];
     selectedSection := JNull; questionCount := 5; timeRemaining := 0;
     isTimerRunning := false; questions := []; currentQuestionIndex := 0;
     score := 0; answers := []; status := idle; error := None |}.

Definition initial_app : AppState :=
  {| state := initial_state; selectedOption := None; isAnswered := false;
     in_flight := None |}.

(** *** The countdown effect *)

(** What the [useEffect] body does for the rendered [state]. *)
Inductive TimerEffect : Type :=
| start_interval    (* first branch: [setInterval(tick, 1000)] *)
| force_completed   (* second branch *)
| no_effect.

Definition timer_effect (st : QuizState) : TimerEffect :=
  if bool_decide (status st = active) && isTimerRunning st
     && (timeRemaining st >? 0)
  then start_interval
  else if (timeRemaining st =? 0) && bool_decide (status st = active)
  then force_completed
  else no_effect.

(** The interval callback. *)
Definition tick (prev : QuizState) : QuizState :=
  set_timeRemaining (timeRemaining prev - 1) prev.

(** The update of the second branch. *)
Definition time_up (prev : QuizState) : QuizState :=
  set_isTimerRunning false (set_status completed prev).

(** [s.padStart(2, '0')] *)
Definition padStart2 (s : string) : string :=
  match String.length s with
  | 0%nat => "00"
  | 1%nat => "0" +:+ s
  | _ => s
  end.

(** [formatTime]. [seconds] is an integer: [Math.floor(seconds / 60)] is the
    floored quotient (the double division is exact enough for that below
    2^53), [%] is the remainder with the sign of the dividend, and a number
    prints in decimal. *)
Definition formatTime (seconds : Z) : string :=
  let mins := seconds / 60 in
  let secs := Z.rem seconds 60 in
  pretty mins +:+ ":" +:+ padStart2 (pretty secs).

(** *** Handlers *)

(** [handleFetchSections] up to its [await]. *)
Definition handleFetchSections (app : AppState) : AppState :=
  if String.eqb (trim (examName (state app))) "" then app
  else
    set_in_flight (Some (awaiting_getExamSections (examName (state app))))
      (setState (fun prev => set_error None (set_status fetching_sections prev))
                app).

(** [handleFetchSections] from the settled [getExamSections] on. *)
Definition handleFetchSections_settled
    (r : Settled geminiService.SyllabusInfo) (app : AppState) : AppState :=
  set_in_flight None
    (match r with
     | Fulfilled syllabus =>
         setState (fun prev =>
                     set_status selecting_section
                       (set_sources (geminiService.sources syllabus)
                          (set_sections (geminiService.sections syllabus) prev)))
                  app
     | RejectedWith e =>
         setState (fun prev => set_error (Some (message e)) (set_status idle prev))
                  app
     end).

(** [handleGenerateQuestions] up to its [await]. *)
Definition handleGenerateQuestions (app : AppState) : AppState :=
  if negb (truthy (selectedSection (state app))) then app
  else
    set_in_flight
      (Some (awaiting_generateQuestions (examName (state app))
               (questionCount (state app)) (selectedSection (state app))))
      (setState (fun prev => set_error None (set_status generating prev)) app).

(** [handleGenerateQuestions] from the settled [generateQuestions] on.
    [closure_questionCount] is the [state.questionCount] of the render the
    handler was called in. *)
Definition handleGenerateQuestions_settled (closure_questionCount : Z)
    (r : Settled (list Question)) (app : AppState) : AppState :=
  set_in_flight None
    (match r with
     | Fulfilled qs =>
         setState (fun prev =>
                     set_answers (replicate (length qs) unanswered)
                       (set_isTimerRunning true
                          (set_timeRemaining (closure_questionCount * 60)
                             (set_score 0
                                (set_currentQuestionIndex 0
                                   (set_status active
                                      (set_questions qs prev)))))))
                  app
     | RejectedWith e =>
         setState (fun prev =>
                     set_error (Some (message e))
                       (set_status selecting_section prev))
                  app
     end).

(** [selectedOption === currentQuestion.correctAnswer] *)
Definition is_correct (selected : nat) (currentQuestion : Question) : bool :=
  match currentQuestion !! "correctAnswer" with
  | Some (JNum n) => Z.of_nat selected =? n
  | _ => false
  end.

(** [a[i] = x] on a JavaScript array: past the end, the array grows. *)
Definition array_set (a : list Answer) (i : nat) (x : Answer) : list Answer :=
  if decide (i < length a)%nat then <[i := x]> a
  else a ++ replicate (i - length a) hole ++ [x].

(** [handleAnswerSubmit]. With no current question, reading
    [currentQuestion.correctAnswer] raises a TypeError and the handler ends
    before any update. *)
Definition handleAnswerSubmit (app : AppState) : AppState :=
  match selectedOption app with
  | None => app
  | Some selected =>
      if isAnswered app then app
      else
        match questions (state app) !! currentQuestionIndex (state app) with
        | None => app
        | Some currentQuestion =>
            let isCorrect := is_correct selected currentQuestion in
            setState (fun prev =>
                        let newAnswers :=
                          array_set (answers prev) (currentQuestionIndex prev)
                                    (chosen selected) in
                        set_answers newAnswers
                          (set_score (if isCorrect then score prev + 1
                                      else score prev) prev))
                     (setIsAnswered true app)
        end
  end.

(** [handleNextQuestion] *)
Definition handleNextQuestion (app : AppState) : AppState :=
  if Z.of_nat (currentQuestionIndex (state app))
     <? Z.of_nat (length (questions (state app))) - 1
  then
    setIsAnswered false
      (setSelectedOption None
         (setState (fun prev =>
                      set_currentQuestionIndex (currentQuestionIndex prev + 1)
                                               prev)
                   app))
  else setState (set_status completed) app.

(** [resetQuiz] *)
Definition resetQuiz (app : AppState) : AppState :=
  setIsAnswered false (setSelectedOption None (setState (fun _ => initial_state) app)).

(** *** Events *)

(** Everything that can run a piece of the component: the listeners of the
    rendered page, the two branches of the countdown effect, and the
    settling of the awaited service call. *)
Inductive Event : Type :=
| change_examName (value : string)     (* the input's [onChange] *)
| submit_exam_form                      (* [onSubmit={handleFetchSections}] *)
| getExamSections_settles (api : Settled GenerateContentResponse)
| click_section (i : nat)               (* the button of [state.sections[i]] *)
| click_count (count : Z)               (* a button of [[5, 10, 20, 50]] *)
| click_back
| click_start                           (* [onClick={handleGenerateQuestions}] *)
| generateQuestions_settles (api : Settled GenerateContentResponse)
| click_option (idx : nat)              (* the button of [question.options[idx]] *)
| click_submit                          (* [onClick={handleAnswerSubmit}] *)
| click_next                            (* [onClick={handleNextQuestion}] *)
| click_pause                           (* the pause / play button *)
| interval_fires                        (* the callback of [setInterval] *)
| zero_effect                           (* the effect's second branch *)
| click_try_another.                    (* [onClick={resetQuiz}] *)

Definition count_menu : list Z := [5; 10; 20; 50].

(** [when b x]: [x] if the guard holds. *)
Definition when {A : Type} (b : bool) (x : A) : option A :=
  if b then Some x else None.

Definition status_is (s : Status) (app : AppState) : bool :=
  bool_decide (status (state app) = s).

(** The options the quiz page lists for the current question. *)
Definition rendered_options (app : AppState) : option (list JSON) :=
  match questions (state app) !! currentQuestionIndex (state app) with
  | Some question =>
      match question !! "options" with
      | Some (JArr options) => Some options
      | _ => None
      end
  | None => None
  end.

Section with_runtime.
Context {runtime : JSONRuntime}.

(** [dispatch ev app]: the state after [ev], or [None] when the page
    rendered for [app] has no such listener (or disables it), the effect is
    not in that branch, or no such promise is awaited. *)
Definition dispatch (ev : Event) (app : AppState) : option AppState :=
  match ev with
  | change_examName value =>
      when (status_is idle app) (setState (set_examName value) app)
  | submit_exam_form =>
      when (status_is idle app) (handleFetchSections app)
  | getExamSections_settles api =>
      match in_flight app with
      | Some (awaiting_getExamSections name) =>
          Some (handleFetchSections_settled
                  (geminiService.getExamSections name api) app)
      | _ => None
      end
  | click_section i =>
      match sections (state app) with
      | JArr items =>
          match items !! i with
          | Some section =>
              when (status_is selecting_section app)
                   (setState (set_selectedSection section) app)
          | None => None
          end
      | _ => None
      end
  | click_count count =>
      when (status_is selecting_section app
            && bool_decide (count ∈ count_menu))
           (setState (set_questionCount count) app)
  | click_back =>
      when (status_is selecting_section app)
           (setState (fun prev => set_selectedSection JNull (set_status idle prev))
                     app)
  | click_start =>
      when (status_is selecting_section app
            && truthy (selectedSection (state app)))
           (handleGenerateQuestions app)
  | generateQuestions_settles api =>
      match in_flight app with
      | Some (awaiting_generateQuestions name count section) =>
          Some (handleGenerateQuestions_settled count
                  (geminiService.generateQuestions name count section api) app)
      | _ => None
      end
  | click_option idx =>
      match rendered_options app with
      | Some options =>
          when (status_is active app && negb (isAnswered app)
                && bool_decide (idx < length options)%nat)
               (setSelectedOption (Some idx) app)
      | None => None
      end
  | click_submit =>
      when (status_is active app && negb (isAnswered app)
            && bool_decide (selectedOption app <> None))
           (handleAnswerSubmit app)
  | click_next =>
      when (status_is active app && isAnswered app) (handleNextQuestion app)
  | click_pause =>
      when (status_is active app)
           (setState (fun prev => set_isTimerRunning (negb (isTimerRunning prev))
                                                     prev)
                     app)
  | interval_fires =>
      match timer_effect (state app) with
      | start_interval => Some (setState tick app)
      | _ => None
      end
  | zero_effect =>
      match timer_effect (state app) with
      | force_completed => Some (setState time_up app)
      | _ => None
      end
  | click_try_another =>
      when (status_is completed app) (resetQuiz app)
  end.

(** The states the component can be in. *)
Inductive reachable : AppState -> Prop :=
| reachable_initial : reachable initial_app
| reachable_dispatch (ev : Event) (app app' : AppState) :
    reachable app -> dispatch ev app = Some app' -> reachable app'.

(** A session played from a list of events. *)
Fixpoint play (evs : list Event) (app : AppState) : option AppState :=
  match evs with
  | [] => Some app
  | ev :: rest =>
      match dispatch ev app with
      | Some app' => play rest app'
      | None => None
      end
  end.

End with_runtime.

(** ** A runtime and responses for the examples *)

(** A JSON string literal: [s] between double quotes. *)
Definition quoted (s : string) : string :=
  String (ascii_of_nat 34) s +:+ String (ascii_of_nat 34) "".

(** [{"sections":["Security Principles","Access Controls"]}] *)
Definition sections_text : string :=
  "{" +:+ quoted "sections" +:+ ":[" +:+ quoted "Security Principles" +:+ ","
  +:+ quoted "Access Controls" +:+ "]}".

Definition sections_data : JSON :=
  JObj {[ "sections" := JArr [JStr "Security Principles";
                              JStr "Access Controls"] ]}.

(** [{"domains":["Security Principles"]}]: an object without "sections". *)
Definition domains_text : string :=
  "{" +:+ quoted "domains" +:+ ":[" +:+ quoted "Security Principles" +:+ "]}".

Definition domains_data : JSON :=
  JObj {[ "domains" := JArr [JStr "Security Principles"] ]}.

(** [[{"text":"2+2?","options":["3","4","5","6"],"correctAnswer":1,
       "explanation":"sum"}]] *)
Definition quiz_text : string :=
  "[{" +:+ quoted "text" +:+ ":" +:+ quoted "2+2?" +:+ ","
  +:+ quoted "options" +:+ ":[" +:+ quoted "3" +:+ "," +:+ quoted "4" +:+ ","
  +:+ quoted "5" +:+ "," +:+ quoted "6" +:+ "],"
  +:+ quoted "correctAnswer" +:+ ":1," +:+ quoted "explanation" +:+ ":"
  +:+ quoted "sum" +:+ "}]".

Definition quiz_data : JSON :=
  JArr [JObj (<["text" := JStr "2+2?"]>
              (<["options" := JArr [JStr "3"; JStr "4"; JStr "5"; JStr "6"]]>
               (<["correctAnswer" := JNum 1]>
                (<["explanation" := JStr "sum"]> ∅))))].

(** [[{"text":"2+2?","options":["3","4"],"correctAnswer":7,
       "explanation":"sum"}]]: two options, and an answer index past them. *)
Definition short_quiz_text : string :=
  "[{" +:+ quoted "text" +:+ ":" +:+ quoted "2+2?" +:+ ","
  +:+ quoted "options" +:+ ":[" +:+ quoted "3" +:+ "," +:+ quoted "4" +:+ "],"
  +:+ quoted "correctAnswer" +:+ ":7," +:+ quoted "explanation" +:+ ":"
  +:+ quoted "sum" +:+ "}]".

Definition short_quiz_data : JSON :=
  JArr [JObj (<["text" := JStr "2+2?"]>
              (<["options" := JArr [JStr "3"; JStr "4"]]>
               (<["correctAnswer" := JNum 7]>
                (<["explanation" := JStr "sum"]> ∅))))].

(** The documents the examples parse. *)
Definition sample_documents : list (string * JSON) :=
  [("{}", JObj ∅); ("[]", JArr []); (sections_text, sections_data);
   (domains_text, domains_data); (quiz_text, quiz_data);
   (short_quiz_text, short_quiz_data)].

Fixpoint lookup_document (docs : list (string * JSON)) (s : string)
  : option JSON :=
  match docs with
  | [] => None
  | (doc, value) :: rest =>
      if String.eqb doc s then Some value else lookup_document rest s
  end.

(** [JSON.parse] on the sample documents; every other text used in the
    examples below ("<html>") is not JSON at all. *)
Definition sample_runtime : JSONRuntime :=
  {| JSON_parse := lookup_document sample_documents;
     JSON_parse_empty_object := eq_refl;
     JSON_parse_empty_array := eq_refl |}.

Definition official_source : GroundingChunkWeb :=
  {| title := Some "ISC2"; uri := Some "https://www.isc2.org" |}.

Definition grounded (n : nat) : option (list Candidate) :=
  Some [ {| groundingMetadata :=
              Some {| groundingChunks :=
                        Some (replicate n {| web := Some official_source |}) |} |} ].

Definition sections_response : GenerateContentResponse :=
  {| text := Some sections_text; candidates := grounded 5 |}.
Definition domains_response : GenerateContentResponse :=
  {| text := Some domains_text; candidates := grounded 1 |}.
Definition html_response : GenerateContentResponse :=
  {| text := Some "<html>"; candidates := grounded 2 |}.
Definition quiz_response : GenerateContentResponse :=
  {| text := Some quiz_text; candidates := None |}.
Definition short_quiz_response : GenerateContentResponse :=
  {| text := Some short_quiz_text; candidates := None |}.
Definition empty_response : GenerateContentResponse :=
  {| text := None; candidates := None |}.

(** Sessions: up to the syllabus request, up to the quiz request, into the
    quiz, with the only question answered, and with the clock run down. *)
Definition to_fetching : list Event :=
  [change_examName "CC isc2"; submit_exam_form].
Definition to_generating : list Event :=
  to_fetching ++ [getExamSections_settles (Fulfilled sections_response);
                  click_section 0%nat; click_start].
Definition to_active : list Event :=
  to_generating ++ [generateQuestions_settles (Fulfilled quiz_response)].
Definition to_answered : list Event :=
  to_active ++ [click_option 1%nat; click_submit].

Definition to_finished : list Event := to_answered ++ [click_next].
Definition to_blank_name : list Event := [change_examName " "].
Definition to_time_up : list Event :=
  to_active ++ replicate 300 interval_fires.

(** A rejection of the service call whose [Error] has an empty message. *)
Definition silent_rejection : Settled GenerateContentResponse :=
  RejectedWith {| message := "" |}.

Definition session (evs : list Event) : AppState :=
  default initial_app (play (runtime := sample_runtime) evs initial_app).

(** ** Predicates of the statements *)

(** The [sections] member is missing from the parsed [data] ([null] has no
    members at all). *)
Definition no_sections_key (data : JSON) : Prop :=
  match data with
  | JObj fields => fields !! "sections" = None
  | _ => True
  end.

(** A question as the [Question] interface and the prompt describe it:
    exactly four options, and [correctAnswer] an index into them. *)
Definition well_formed_question (q : Question) : bool :=
  match q !! "options", q !! "correctAnswer" with
  | Some (JArr options), Some (JNum n) =>
      bool_decide (length options = 4%nat) && (0 <=? n) && (n <? 4)
  | _, _ => false
  end.

(** [1] when the current question is answered, [0] otherwise. *)
Definition answered_now (app : AppState) : nat :=
  if isAnswered app then 1%nat else 0%nat.

(** No quiz has been generated in this session yet. *)
Definition before_quiz (app : AppState) : Prop :=
  questions (state app) = [] /\ answers (state app) = [] /\
  timeRemaining (state app) = 0 /\ score (state app) = 0 /\
  currentQuestionIndex (state app) = 0%nat /\
  selectedOption app = None /\ isAnswered app = false.

(** A quiz is being taken, or is over. *)
Definition in_quiz (app : AppState) : Prop :=
  let st := state app in
  0 <= timeRemaining st <= questionCount st * 60 /\
  length (answers st) = length (questions st) /\
  (currentQuestionIndex st < length (questions st)
   \/ currentQuestionIndex st = 0 /\ questions st = [])%nat /\
  (selectedOption app <> None ->
   (currentQuestionIndex st < length (questions st))%nat) /\
  (isAnswered app = true ->
   exists selected, selectedOption app = Some selected /\
                    answers st !! currentQuestionIndex st = Some (chosen selected)) /\
  (forall j : nat,
     (currentQuestionIndex st + answered_now app <= j)%nat ->
     (j < length (answers st))%nat ->
     answers st !! j = Some unanswered) /\
  0 <= score st <= Z.of_nat (currentQuestionIndex st + answered_now app).

(** What holds of every state the component reaches, by status. *)
Definition session_invariant (app : AppState) : Prop :=
  questionCount (state app) ∈ count_menu /\
  match status (state app) with
  | idle | selecting_section => in_flight app = None /\ before_quiz app
  | fetching_sections =>
      (exists name, in_flight app = Some (awaiting_getExamSections name)) /\
      error (state app) = None /\ before_quiz app
  | generating =>
      (exists name section,
         in_flight app =
         Some (awaiting_generateQuestions name (questionCount (state app))
                                          section)) /\
      error (state app) = None /\ before_quiz app
  | active | completed => in_flight app = None /\ in_quiz app
  end.

(** ** Predicates of the further statements *)

(** [section] is one of the entries of [state.sections]. *)
Definition listed_section (st : QuizState) (section : JSON) : Prop :=
  exists (items : list JSON) (i : nat),
    sections st = JArr items /\ items !! i = Some section.

(** [k] is the index of one of the options the page lists for [q]. *)
Definition listed_option (q : Question) (k : nat) : Prop :=
  exists options : list JSON,
    q !! "options" = Some (JArr options) /\ (k < length options)%nat.

(** The recorded answer [a] to [q] is the correct one. *)
Definition scored (q : Question) (a : Answer) : bool :=
  match a with
  | chosen k => is_correct k q
  | unanswered | hole => false
  end.

(** How many of the questions have their correct answer recorded. *)
Fixpoint correct_answers (qs : list Question) (slots : list Answer) : nat :=
  match qs, slots with
  | q :: qs', a :: slots' =>
      ((if scored q a then 1 else 0) + correct_answers qs' slots')%nat
  | _, _ => 0%nat
  end.

(** Every code unit of [s] is white space. *)
Fixpoint blank (s : string) : bool :=
  match s with
  | EmptyString => true
  | String c rest => is_white_space c && blank rest
  end.

(** What the session keeps of the exam, the section and the answers. *)
Definition session_record (app : AppState) : Prop :=
  let st := state app in
  (status st <> idle -> trim (examName st) <> "") /\
  match in_flight app with
  | Some (awaiting_getExamSections name) => name = examName st
  | Some (awaiting_generateQuestions name _ section) =>
      name = examName st /\ section = selectedSection st
  | None => True
  end /\
  match status st with
  | idle | fetching_sections => selectedSection st = JNull
  | selecting_section =>
      selectedSection st = JNull \/ listed_section st (selectedSection st)
  | generating | active | completed =>
      truthy (selectedSection st) = true /\
      listed_section st (selectedSection st)
  end /\
  (forall j : nat,
     (j < currentQuestionIndex st + answered_now app)%nat ->
     exists k, answers st !! j = Some (chosen k)) /\
  (forall (j k : nat),
     answers st !! j = Some (chosen k) ->
     exists q, questions st !! j = Some q /\ listed_option q k) /\
  (forall selected : nat,
     selectedOption app = Some selected ->
     exists q, questions st !! currentQuestionIndex st = Some q /\
               listed_option q selected) /\
  score st = Z.of_nat (correct_answers (questions st) (answers st)).

(** The status changes the handlers make: the edges of the session's
    state machine, a status with itself where an event stays in it. *)
Definition status_edge (from to : Status) : bool :=
  match from, to with
  | idle, (idle | fetching_sections)
  | fetching_sections, (selecting_section | idle)
  | selecting_section, (selecting_section | idle | generating)
  | generating, (active | selecting_section)
  | active, (active | completed)
  | completed, idle => true
  | _, _ => false
  end.

(** Further sessions on the sample runtime: a wrong answer, a paused quiz. *)
Definition to_wrong_answer : list Event :=
  to_active ++ [click_option 0%nat; click_submit].
Definition to_paused : list Event := to_active ++ [click_pause].

(** * Properties *)

(** ** The service *)

Section service_properties.
Context {runtime : JSONRuntime}.
Import geminiService.

(** What [getExamSections] answers once the response is there: the [try]
    branch when the text parses and the property read does not throw, the
    [catch] branch otherwise. *)
Lemma getExamSections_fulfilled (name : string)
    (response : GenerateContentResponse) :
  getExamSections name (Fulfilled response) =
  Fulfilled
    match JSON_parse (or_text (text response) "{}") with
    | Some JNull | None =>
        {| sections := fallback_sections; sources := [] |}
    | Some data =>
        {| sections :=
             or_value (default None (get_data_property data "sections"))
                      fallback_sections;
           sources := take 3 (grounding_sources response) |}
    end.
Proof.
  unfold getExamSections.
  destruct (JSON_parse (or_text (text response) "{}")) as [[]|]; reflexivity.
Qed.

(** A response without text is read as the empty object. *)
Lemma getExamSections_no_text (name : string) (cs : option (list Candidate)) :
  getExamSections name (Fulfilled {| text := None; candidates := cs |}) =
  Fulfilled {| sections := fallback_sections;
               sources := take 3 (grounding_sources
                                    {| text := None; candidates := cs |}) |}.
Proof.
  rewrite getExamSections_fulfilled. cbn [text or_text].
  rewrite JSON_parse_empty_object. reflexivity.
Qed.

Lemma getExamSections_fallback_sections (name : string)
    (response : GenerateContentResponse) :
  match JSON_parse (or_text (text response) "{}") with
  | Some data => no_sections_key data
  | None => True
  end ->
  exists srcs,
    getExamSections name (Fulfilled response) =
    Fulfilled {| sections := fallback_sections; sources := srcs |}.
Proof.
  intros Hmissing. rewrite getExamSections_fulfilled.
  destruct (JSON_parse (or_text (text response) "{}")) as [data|];
    [|eauto].
  destruct data; cbn in *; eauto.
  rewrite Hmissing. cbn. eauto.
Qed.


(** [generateQuestions] accepts exactly the responses whose text parses to an
    array. *)
Lemma generateQuestions_fulfilled (name : string) (count : Z) (section : JSON)
    (response : GenerateContentResponse) :
  generateQuestions name count section (Fulfilled response) =
  match JSON_parse (or_text (text response) "[]") with
  | Some (JArr questionsData) =>
      Fulfilled (imap (fun (index : nat) (q : JSON) =>
                         <["id" := JStr ("q-" +:+ pretty index)]> (spread q))
                      questionsData)
  | _ => RejectedWith generation_error
  end.
Proof.
  unfold generateQuestions.
  destruct (JSON_parse (or_text (text response) "[]")) as [[]|]; reflexivity.
Qed.

(** A response without text is read as the empty array: an empty quiz. *)
Lemma generateQuestions_no_text (name : string) (count : Z) (section : JSON)
    (cs : option (list Candidate)) :
  generateQuestions name count section
    (Fulfilled {| text := None; candidates := cs |}) = Fulfilled [].
Proof.
  rewrite generateQuestions_fulfilled. cbn [text or_text].
  rewrite JSON_parse_empty_array. reflexivity.
Qed.

(** C8, as the code has it. What [generateQuestions] returns is the parsed
    array, element by element: each question is the element's own properties
    with [id] set to "q-" followed by its index. The result has the array's
    length, whatever [count] is, and the elements are not inspected. *)
Theorem generateQuestions_returns_parsed_array (name : string) (count : Z)
    (section : JSON) (api : Settled GenerateContentResponse)
    (qs : list Question) :
  generateQuestions name count section api = Fulfilled qs ->
  exists response questionsData,
    api = Fulfilled response /\
    JSON_parse (or_text (text response) "[]") = Some (JArr questionsData) /\
    length qs = length questionsData /\
    forall (i : nat) (q : JSON),
      questionsData !! i = Some q ->
      qs !! i = Some (<["id" := JStr ("q-" +:+ pretty i)]> (spread q)).
Proof.
  destruct api as [response|e]; [|discriminate].
  rewrite generateQuestions_fulfilled.
  destruct (JSON_parse (or_text (text response) "[]")) as [[]|] eqn:Hparse;
    try discriminate.
  intros [= <-]. exists response, items. repeat split.
  - exact Hparse.
  - apply length_imap.
  - intros i q Hq. rewrite list_lookup_imap, Hq. reflexivity.
Qed.

End service_properties.

(** ** The session invariant *)

Section invariant_proofs.
Context {runtime : JSONRuntime}.

Lemma when_Some {A : Type} (b : bool) (x y : A) :
  when b x = Some y -> b = true /\ x = y.
Proof. destruct b; cbn; intros [= <-]; auto. Qed.

Lemma status_is_true (s : Status) (app : AppState) :
  status_is s app = true -> status (state app) = s.
Proof. unfold status_is. apply bool_decide_eq_true_1. Qed.

Lemma session_invariant_initial : session_invariant initial_app.
Proof.
  split; [apply list_elem_of_here|]. cbn. unfold before_quiz. cbn. tauto.
Qed.

Lemma timer_effect_start (st : QuizState) :
  timer_effect st = start_interval <->
  status st = active /\ isTimerRunning st = true /\ 0 < timeRemaining st.
Proof.
  unfold timer_effect.
  destruct (bool_decide_reflect (status st = active)) as [Hs|Hs];
    destruct (isTimerRunning st); cbn;
    destruct (Z.gtb_spec (timeRemaining st) 0);
    destruct (Z.eqb_spec (timeRemaining st) 0); cbn;
    split; try discriminate; try tauto; intros (? & ? & ?);
    try discriminate; try lia; try contradiction.
Qed.

Lemma timer_effect_force (st : QuizState) :
  timer_effect st = force_completed <->
  status st = active /\ timeRemaining st = 0.
Proof.
  unfold timer_effect.
  destruct (bool_decide_reflect (status st = active)) as [Hs|Hs];
    destruct (isTimerRunning st); cbn;
    destruct (Z.gtb_spec (timeRemaining st) 0);
    destruct (Z.eqb_spec (timeRemaining st) 0); cbn;
    split; try discriminate; try tauto; intros (? & ?);
    try discriminate; try lia; try contradiction.
Qed.

Lemma timer_effect_not_active (st : QuizState) :
  status st <> active -> timer_effect st = no_effect.
Proof.
  intros Hst. unfold timer_effect.
  rewrite (bool_decide_eq_false_2 _ Hst), andb_false_r. reflexivity.
Qed.

Lemma count_menu_nonneg (count : Z) : count ∈ count_menu -> 0 <= count.
Proof.
  unfold count_menu. rewrite !elem_of_cons, elem_of_nil. lia.
Qed.

(** The statuses in which a promise is awaited. *)
Lemma invariant_awaiting_sections (app : AppState) (name : string) :
  session_invariant app ->
  in_flight app = Some (awaiting_getExamSections name) ->
  status (state app) = fetching_sections /\ error (state app) = None /\
  before_quiz app.
Proof.
  intros [_ Hinv] Hfl.
  destruct (status (state app)); rewrite Hfl in Hinv;
    try (destruct Hinv as [[=] _]).
  - tauto.
  - destruct Hinv as [(? & ? & [=]) _].
Qed.

Lemma invariant_awaiting_questions (app : AppState) (name : string)
    (count : Z) (section : JSON) :
  session_invariant app ->
  in_flight app = Some (awaiting_generateQuestions name count section) ->
  status (state app) = generating /\ count = questionCount (state app) /\
  error (state app) = None /\ before_quiz app.
Proof.
  intros [_ Hinv] Hfl.
  destruct (status (state app)); rewrite Hfl in Hinv;
    try (destruct Hinv as [[=] _]).
  - destruct Hinv as [(? & [=]) _].
  - destruct Hinv as [(? & ? & [= -> ->]) ?]. tauto.
Qed.

Lemma handleFetchSections_invariant (app : AppState) :
  session_invariant app -> status (state app) = idle ->
  session_invariant (handleFetchSections app).
Proof.
  intros Hinv Hst. unfold handleFetchSections.
  destruct (String.eqb _ _); [assumption|].
  destruct Hinv as [Hmenu Hinv]. rewrite Hst in Hinv.
  split; [exact Hmenu|]. cbn. split; [eauto|]. split; [reflexivity|].
  exact (proj2 Hinv).
Qed.

Lemma handleFetchSections_settled_invariant (app : AppState) (name : string)
    (r : Settled geminiService.SyllabusInfo) :
  session_invariant app ->
  in_flight app = Some (awaiting_getExamSections name) ->
  session_invariant (handleFetchSections_settled r app).
Proof.
  intros Hinv Hfl.
  destruct (invariant_awaiting_sections _ _ Hinv Hfl) as (_ & _ & Hquiet).
  destruct Hinv as [Hmenu _].
  destruct r; (split; [exact Hmenu|]); cbn; split; auto.
Qed.

Lemma handleGenerateQuestions_invariant (app : AppState) :
  session_invariant app -> status (state app) = selecting_section ->
  session_invariant (handleGenerateQuestions app).
Proof.
  intros Hinv Hst. unfold handleGenerateQuestions.
  destruct (negb _); [assumption|].
  destruct Hinv as [Hmenu Hinv]. rewrite Hst in Hinv.
  split; [exact Hmenu|]. cbn. split; [eauto|]. split; [reflexivity|].
  exact (proj2 Hinv).
Qed.

Lemma handleGenerateQuestions_settled_invariant (app : AppState)
    (name : string) (count : Z) (section : JSON)
    (r : Settled (list Question)) :
  session_invariant app ->
  in_flight app = Some (awaiting_generateQuestions name count section) ->
  session_invariant (handleGenerateQuestions_settled count r app).
Proof.
  intros Hinv Hfl.
  destruct (invariant_awaiting_questions _ _ _ _ Hinv Hfl)
    as (_ & -> & _ & Hquiet).
  destruct Hinv as [Hmenu _].
  destruct r as [qs|e]; (split; [exact Hmenu|]); cbn; [|auto].
  split; [reflexivity|].
  destruct Hquiet as (_ & _ & _ & _ & _ & Hsel & Hans).
  pose proof (count_menu_nonneg _ Hmenu).
  unfold in_quiz, answered_now; cbn. rewrite Hsel, Hans, length_replicate.
  repeat split; try lia; try congruence.
  - destruct qs; cbn; [right; auto | left; lia].
  - intros j _ Hj. apply lookup_replicate_2. exact Hj.
Qed.

Lemma array_set_in_range (a : list Answer) (i : nat) (x : Answer) :
  (i < length a)%nat -> array_set a i x = <[i := x]> a.
Proof. intros Hi. unfold array_set. destruct (decide _); [reflexivity|lia]. Qed.

Lemma handleAnswerSubmit_in_quiz (app : AppState) :
  in_quiz app -> in_quiz (handleAnswerSubmit app).
Proof.
  intros Hquiz. unfold handleAnswerSubmit.
  destruct (selectedOption app) as [selected|] eqn:Hsel; [|assumption].
  destruct (isAnswered app) eqn:Hans; [assumption|].
  destruct (questions (state app) !! currentQuestionIndex (state app))
    as [currentQuestion|] eqn:Hq; [|assumption].
  apply lookup_lt_Some in Hq.
  destruct Hquiz as (Htime & Hlen & Hidx & _ & _ & Hrest & Hscore).
  unfold answered_now in Hrest, Hscore. rewrite Hans in Hrest, Hscore.
  unfold in_quiz, answered_now; cbn.
  rewrite array_set_in_range by lia. rewrite length_insert.
  repeat split; try tauto; try lia.
  - exists selected. split; [exact Hsel|].
    apply list_lookup_insert_eq. lia.
  - intros j Hj Hlt. rewrite list_lookup_insert_ne by lia.
    apply Hrest; lia.
  - destruct (is_correct _ _); lia.
  - destruct (is_correct _ _); lia.
Qed.

Lemma handleAnswerSubmit_invariant (app : AppState) :
  session_invariant app -> status (state app) = active ->
  session_invariant (handleAnswerSubmit app).
Proof.
  intros [Hmenu Hinv] Hst. rewrite Hst in Hinv. destruct Hinv as [Hfl Hquiz].
  pose proof (handleAnswerSubmit_in_quiz app Hquiz) as Hquiz'.
  revert Hquiz'. unfold handleAnswerSubmit.
  destruct (selectedOption app); [|split; [|rewrite Hst]; auto].
  destruct (isAnswered app); [split; [|rewrite Hst]; auto|].
  destruct (_ !! _); [|split; [|rewrite Hst]; auto].
  intros Hquiz'. split; [exact Hmenu|]. cbn. rewrite Hst. auto.
Qed.

Lemma handleNextQuestion_invariant (app : AppState) :
  session_invariant app -> status (state app) = active ->
  session_invariant (handleNextQuestion app).
Proof.
  intros [Hmenu Hinv] Hst. rewrite Hst in Hinv. destruct Hinv as [Hfl Hquiz].
  unfold handleNextQuestion.
  destruct (Z.ltb_spec (Z.of_nat (currentQuestionIndex (state app)))
              (Z.of_nat (length (questions (state app))) - 1)) as [Hlt|Hge].
  - split; [exact Hmenu|]. cbn. rewrite Hst. split; [exact Hfl|].
    destruct Hquiz as (Htime & Hlen & Hidx & _ & _ & Hrest & Hscore).
    unfold in_quiz, answered_now in *; cbn.
    repeat split; try tauto; try lia; try congruence.
    + intros j Hj Hjlt. apply Hrest; [|exact Hjlt].
      destruct (isAnswered app); lia.
    + destruct (isAnswered app); lia.
  - split; [exact Hmenu|]. cbn. split; [exact Hfl|]. exact Hquiz.
Qed.

Lemma in_quiz_timer (app : AppState) (f : QuizState -> QuizState) :
  (forall st, questionCount (f st) = questionCount st /\
              questions (f st) = questions st /\
              currentQuestionIndex (f st) = currentQuestionIndex st /\
              score (f st) = score st /\ answers (f st) = answers st) ->
  0 <= timeRemaining (f (state app))
    <= questionCount (f (state app)) * 60 ->
  in_quiz app -> in_quiz (setState f app).
Proof.
  intros Hf Htime Hquiz. destruct (Hf (state app)) as (Hc & Hq & Hi & Hs & Ha).
  unfold in_quiz, answered_now in *; cbn.
  rewrite Hq, Hi, Hs, Ha. tauto.
Qed.

Lemma rendered_options_current (app : AppState) (options : list JSON) :
  rendered_options app = Some options ->
  (currentQuestionIndex (state app) < length (questions (state app)))%nat.
Proof.
  unfold rendered_options.
  destruct (questions (state app) !! currentQuestionIndex (state app))
    eqn:Hq; [|discriminate].
  intros _. eapply lookup_lt_Some, Hq.
Qed.

(** Every listener, effect branch and continuation keeps the invariant. *)
Lemma dispatch_invariant (ev : Event) (app app' : AppState) :
  session_invariant app -> dispatch ev app = Some app' ->
  session_invariant app'.
Proof.
  intros Hinv Hd. destruct ev; cbn [dispatch] in Hd.
  - (* change_examName *)
    apply when_Some in Hd as [Hst%status_is_true <-].
    destruct Hinv as [Hmenu Hinv]. split; [exact Hmenu|].
    cbn. rewrite Hst in Hinv |- *. exact Hinv.
  - (* submit_exam_form *)
    apply when_Some in Hd as [Hst%status_is_true <-].
    apply handleFetchSections_invariant; assumption.
  - (* getExamSections_settles *)
    destruct (in_flight app) as [[name|]|] eqn:Hfl; try discriminate.
    injection Hd as <-.
    eapply handleFetchSections_settled_invariant; eassumption.
  - (* click_section *)
    destruct (sections (state app)); try discriminate.
    destruct (items !! i); try discriminate.
    apply when_Some in Hd as [Hst%status_is_true <-].
    destruct Hinv as [Hmenu Hinv]. split; [exact Hmenu|].
    cbn. rewrite Hst in Hinv |- *. exact Hinv.
  - (* click_count *)
    apply when_Some in Hd as [Hg <-].
    apply andb_true_iff in Hg as [Hst%status_is_true Hin%bool_decide_eq_true_1].
    destruct Hinv as [_ Hinv]. split; [exact Hin|].
    cbn. rewrite Hst in Hinv |- *. exact Hinv.
  - (* click_back *)
    apply when_Some in Hd as [Hst%status_is_true <-].
    destruct Hinv as [Hmenu Hinv]. split; [exact Hmenu|].
    cbn. rewrite Hst in Hinv. exact Hinv.
  - (* click_start *)
    apply when_Some in Hd as [Hg <-].
    apply andb_true_iff in Hg as [Hst%status_is_true _].
    apply handleGenerateQuestions_invariant; assumption.
  - (* generateQuestions_settles *)
    destruct (in_flight app) as [[|name count section]|] eqn:Hfl;
      try discriminate.
    injection Hd as <-.
    eapply handleGenerateQuestions_settled_invariant; eassumption.
  - (* click_option *)
    destruct (rendered_options app) as [options|] eqn:Hopts;
      try discriminate.
    apply rendered_options_current in Hopts.
    apply when_Some in Hd as [Hg <-].
    apply andb_true_iff in Hg as [Hg _].
    apply andb_true_iff in Hg as [Hst%status_is_true Hans%negb_true_iff].
    destruct Hinv as [Hmenu Hinv]. split; [exact Hmenu|].
    cbn. rewrite Hst in Hinv |- *. destruct Hinv as [Hfl Hquiz].
    split; [exact Hfl|].
    destruct Hquiz as (Htime & Hlen & Hcur & _ & _ & Hrest & Hscore).
    unfold in_quiz, answered_now in *; cbn. rewrite Hans in *.
    repeat split; try tauto; try lia.
  - (* click_submit *)
    apply when_Some in Hd as [Hg <-].
    apply andb_true_iff in Hg as [Hg _].
    apply andb_true_iff in Hg as [Hst%status_is_true _].
    apply handleAnswerSubmit_invariant; assumption.
  - (* click_next *)
    apply when_Some in Hd as [Hg <-].
    apply andb_true_iff in Hg as [Hst%status_is_true _].
    apply handleNextQuestion_invariant; assumption.
  - (* click_pause *)
    apply when_Some in Hd as [Hst%status_is_true <-].
    destruct Hinv as [Hmenu Hinv]. split; [exact Hmenu|].
    cbn. rewrite Hst in Hinv |- *. exact Hinv.
  - (* interval_fires *)
    destruct (timer_effect (state app)) eqn:Heff; try discriminate.
    injection Hd as <-. apply timer_effect_start in Heff as (Hst & _ & Hpos).
    destruct Hinv as [Hmenu Hinv]. split; [exact Hmenu|].
    cbn. rewrite Hst in Hinv |- *. destruct Hinv as [Hfl Hquiz].
    split; [exact Hfl|]. apply in_quiz_timer; [cbn; tauto| |exact Hquiz].
    destruct Hquiz as (Htime & _). cbn. lia.
  - (* zero_effect *)
    destruct (timer_effect (state app)) eqn:Heff; try discriminate.
    injection Hd as <-. apply timer_effect_force in Heff as (Hst & Hzero).
    destruct Hinv as [Hmenu Hinv]. split; [exact Hmenu|].
    cbn. rewrite Hst in Hinv. exact Hinv.
  - (* click_try_another *)
    apply when_Some in Hd as [Hst%status_is_true <-].
    destruct Hinv as [_ Hquiz]. rewrite Hst in Hquiz.
    split; [apply list_elem_of_here|]. cbn. split; [tauto|].
    unfold before_quiz; cbn. tauto.
Qed.

Lemma reachable_invariant (app : AppState) :
  reachable app -> session_invariant app.
Proof.
  induction 1 as [|ev app app' _ IH Hd].
  - exact session_invariant_initial.
  - exact (dispatch_invariant ev app app' IH Hd).
Qed.

Lemma play_reachable (evs : list Event) (app app' : AppState) :
  reachable app -> play evs app = Some app' -> reachable app'.
Proof.
  revert app. induction evs as [|ev rest IH]; intros app Hr; cbn.
  - intros [= <-]. exact Hr.
  - destruct (dispatch ev app) as [next|] eqn:Hd; [|discriminate].
    apply IH. exact (reachable_dispatch ev app next Hr Hd).
Qed.

End invariant_proofs.

(** ** The countdown *)

Section session_properties.
Context {runtime : JSONRuntime}.

(** During the quiz only the interval callback moves the clock. *)
Lemma dispatch_timeRemaining (ev : Event) (app app' : AppState) :
  session_invariant app -> status (state app) = active ->
  dispatch ev app = Some app' ->
  ev = interval_fires \/
  timeRemaining (state app') = timeRemaining (state app).
Proof.
  intros [_ Hinv] Hst Hd. rewrite Hst in Hinv. destruct Hinv as [Hfl _].
  destruct ev; cbn [dispatch] in Hd; auto; right.
  all: unfold status_is in Hd; rewrite ?Hst, ?Hfl in Hd; cbn in Hd;
    try discriminate.
  - destruct (sections (state app)); try discriminate.
    destruct (items !! i); discriminate.
  - destruct (rendered_options app); try discriminate.
    apply when_Some in Hd as [_ <-]. reflexivity.
  - apply when_Some in Hd as [_ <-]. unfold handleAnswerSubmit.
    destruct (selectedOption app); [|reflexivity].
    destruct (isAnswered app); [reflexivity|].
    destruct (_ !! _); reflexivity.
  - apply when_Some in Hd as [_ <-]. unfold handleNextQuestion.
    destruct (_ <? _); reflexivity.
  - injection Hd as <-. reflexivity.
  - destruct (timer_effect (state app)); try discriminate.
    injection Hd as <-. reflexivity.
Qed.

(** A completed session offers the reset button and nothing else. *)
Lemma completed_offers_reset_only (ev : Event) (app app' : AppState) :
  session_invariant app -> status (state app) = completed ->
  dispatch ev app = Some app' -> ev = click_try_another.
Proof.
  intros [_ Hinv] Hst Hd. rewrite Hst in Hinv. destruct Hinv as [Hfl _].
  destruct ev; cbn [dispatch] in Hd; auto; exfalso.
  all: unfold status_is in Hd; rewrite ?Hst, ?Hfl in Hd; cbn in Hd;
    try discriminate.
  - destruct (sections (state app)); try discriminate.
    destruct (items !! i); discriminate.
  - destruct (rendered_options app); discriminate.
  - rewrite timer_effect_not_active in Hd by (rewrite Hst; discriminate).
    discriminate.
  - rewrite timer_effect_not_active in Hd by (rewrite Hst; discriminate).
    discriminate.
Qed.

(** C1. In every reachable state [timeRemaining] lies between 0 and
    [questionCount * 60]. The interval callback runs only for an active
    session whose timer is running with time left, and takes exactly one
    second off; during the quiz nothing else changes the clock. When an
    active session has no time left the effect completes it and stops the
    timer, with the clock still at zero; after that the effect has nothing to
    do and the page offers the reset alone, so the session is completed
    once. *)
Theorem countdown_bounds_and_expiry (app : AppState) :
  reachable app ->
  let st := state app in
  0 <= timeRemaining st <= questionCount st * 60 /\
  (forall app',
     dispatch interval_fires app = Some app' ->
     status st = active /\ isTimerRunning st = true /\ 0 < timeRemaining st /\
     app' = setState (set_timeRemaining (timeRemaining st - 1)) app) /\
  (status st = active -> isTimerRunning st = true -> 0 < timeRemaining st ->
   dispatch interval_fires app =
   Some (setState (set_timeRemaining (timeRemaining st - 1)) app)) /\
  (forall ev app',
     status st = active -> dispatch ev app = Some app' ->
     timeRemaining (state app') <> timeRemaining st ->
     ev = interval_fires) /\
  (status st = active -> timeRemaining st = 0 ->
   dispatch interval_fires app = None /\
   exists app',
     dispatch zero_effect app = Some app' /\
     status (state app') = completed /\
     isTimerRunning (state app') = false /\
     timeRemaining (state app') = 0 /\
     timer_effect (state app') = no_effect /\
     forall ev app'',
       dispatch ev app' = Some app'' -> ev = click_try_another).
Proof.
  intros Hreach st. pose proof (reachable_invariant app Hreach) as Hinv.
  split; [|split; [|split; [|split]]].
  - destruct Hinv as [Hmenu Hinv]. apply count_menu_nonneg in Hmenu.
    subst st. unfold before_quiz, in_quiz in Hinv.
    destruct (status (state app)); intuition lia.
  - intros app' Hd. cbn [dispatch] in Hd.
    destruct (timer_effect (state app)) eqn:Heff; try discriminate.
    injection Hd as <-. apply timer_effect_start in Heff. tauto.
  - intros Hst Hrun Hpos. cbn [dispatch].
    replace (timer_effect (state app)) with start_interval; [reflexivity|].
    symmetry. apply timer_effect_start. auto.
  - intros ev app' Hst Hd Hne.
    destruct (dispatch_timeRemaining ev app app' Hinv Hst Hd); tauto.
  - intros Hst Hzero. cbn [dispatch].
    replace (timer_effect (state app)) with force_completed
      by (symmetry; apply timer_effect_force; auto).
    split; [reflexivity|]. exists (setState time_up app).
    assert (timer_effect (state (setState time_up app)) = no_effect) as Hoff
      by (apply timer_effect_not_active; discriminate).
    assert (dispatch zero_effect app = Some (setState time_up app)) as Hd.
    { cbn [dispatch].
      replace (timer_effect (state app)) with force_completed
        by (symmetry; apply timer_effect_force; auto).
      reflexivity. }
    repeat split; try assumption; try reflexivity.
    intros ev app'' Hev.
    apply (completed_offers_reset_only ev (setState time_up app) app'');
      [|reflexivity|exact Hev].
    exact (dispatch_invariant _ _ _ Hinv Hd).
Qed.

(** ** Answers, score and progress *)

(** C2. In a reachable active session whose current question already has
    its answer recorded, [handleAnswerSubmit] changes nothing: no slot of
    [answers], not the score, no other part of the component. *)
Theorem resubmission_is_noop (app : AppState) (recorded : nat) :
  reachable app ->
  status (state app) = active ->
  answers (state app) !! currentQuestionIndex (state app)
    = Some (chosen recorded) ->
  handleAnswerSubmit app = app.
Proof.
  intros Hreach Hst Hslot.
  destruct (reachable_invariant app Hreach) as [_ Hinv].
  rewrite Hst in Hinv. destruct Hinv as (_ & _ & _ & _ & _ & _ & Hrest & _).
  unfold handleAnswerSubmit.
  destruct (selectedOption app); [|reflexivity].
  destruct (isAnswered app) eqn:Hans; [reflexivity|exfalso].
  unfold answered_now in Hrest. rewrite Hans in Hrest.
  specialize (Hrest (currentQuestionIndex (state app))).
  rewrite Hslot in Hrest.
  apply lookup_lt_Some in Hslot.
  specialize (Hrest ltac:(lia) Hslot). discriminate.
Qed.

(** C3. In every reachable state the score is at most
    [currentQuestionIndex + 1] while the session is active and at most
    [questions.length] once it is completed. *)
Theorem score_bounded (app : AppState) :
  reachable app ->
  (status (state app) = active ->
   score (state app) <= Z.of_nat (currentQuestionIndex (state app)) + 1) /\
  (status (state app) = completed ->
   score (state app) <= Z.of_nat (length (questions (state app)))).
Proof.
  intros Hreach. destruct (reachable_invariant app Hreach) as [_ Hinv].
  split; intros Hst; rewrite Hst in Hinv;
    destruct Hinv as (_ & _ & Hlen & Hcur & _ & Hans & _ & Hscore);
    unfold answered_now in Hscore.
  - destruct (isAnswered app); lia.
  - destruct (isAnswered app).
    + destruct (Hans eq_refl) as (selected & _ & Hslot).
      apply lookup_lt_Some in Hslot. lia.
    + destruct Hcur as [Hlt|[Hzero _]]; lia.
Qed.


(** C5. Whatever the state, [resetQuiz] leaves every field of the session
    at its initial value: empty name, no sections, sources, questions or
    answers, no selected section, five questions, clock at zero and stopped,
    index and score zero, status idle, no error; and no option selected. *)
Theorem resetQuiz_restores_initial (app : AppState) :
  state (resetQuiz app) =
    {| examName := ""; sections := JArr []; sources := [];
       selectedSection := JNull; questionCount := 5; timeRemaining := 0;
       isTimerRunning := false; questions := []; currentQuestionIndex := 0;
       score := 0; answers := []; status := idle; error := None |} /\
  selectedOption (resetQuiz app) = None /\
  isAnswered (resetQuiz app) = false.
Proof. repeat split. Qed.

(** ** The two service calls seen from the session *)

(** A response that is not JSON is rejected with the fixed error. *)
Lemma generateQuestions_malformed (name : string) (count : Z) (section : JSON)
    (response : GenerateContentResponse) :
  JSON_parse (or_text (text response) "[]") = None ->
  geminiService.generateQuestions name count section (Fulfilled response)
  = RejectedWith geminiService.generation_error.
Proof.
  intros Hparse. rewrite generateQuestions_fulfilled, Hparse. reflexivity.
Qed.

(** C6, as the code has it. When the awaited [generateQuestions] rejects,
    the session goes back to [selecting_section] with [questions] still
    empty and [error] set to the message of the rejection. If the service
    answered and the rejection comes from its text (not JSON, or not an
    array), that message is "Failed to generate questions. Please try
    again."; if the service call itself was rejected, it is the message of
    that rejection, whatever it is. *)
Theorem generation_failure_returns_to_selection (app : AppState)
    (name : string) (count : Z) (section : JSON)
    (api : Settled GenerateContentResponse) (e : JSError) :
  reachable app ->
  in_flight app = Some (awaiting_generateQuestions name count section) ->
  geminiService.generateQuestions name count section api = RejectedWith e ->
  exists app',
    dispatch (generateQuestions_settles api) app = Some app' /\
    status (state app') = selecting_section /\
    questions (state app') = [] /\
    error (state app') = Some (message e) /\
    (forall response,
       api = Fulfilled response ->
       message e = "Failed to generate questions. Please try again.") /\
    (forall rejection, api = RejectedWith rejection -> e = rejection).
Proof.
  intros Hreach Hfl Hrej.
  destruct (invariant_awaiting_questions app name count section
              (reachable_invariant app Hreach) Hfl)
    as (_ & _ & _ & Hqs & _).
  eexists. cbn [dispatch]. rewrite Hfl, Hrej. split; [reflexivity|].
  cbn. repeat split; try assumption.
  - intros response ->. rewrite generateQuestions_fulfilled in Hrej.
    destruct (JSON_parse _) as [[]|]; try discriminate;
      injection Hrej as <-; reflexivity.
  - intros rejection ->. cbn in Hrej. congruence.
Qed.

(** C7. When the text of the syllabus response does not parse, or parses to
    a value without a "sections" member, [getExamSections] answers with the
    four fallback sections, and the waiting session moves to
    [selecting_section] with those sections and no error. *)
Theorem missing_sections_fall_back (app : AppState) (name : string)
    (response : GenerateContentResponse) :
  reachable app ->
  in_flight app = Some (awaiting_getExamSections name) ->
  match JSON_parse (or_text (text response) "{}") with
  | Some data => no_sections_key data
  | None => True
  end ->
  exists srcs app',
    geminiService.getExamSections name (Fulfilled response)
    = Fulfilled {| geminiService.sections :=
                     JArr [JStr "General Knowledge"; JStr "Core Concepts";
                           JStr "Advanced Topics"; JStr "Practice Set"];
                   geminiService.sources := srcs |} /\
    dispatch (getExamSections_settles (Fulfilled response)) app = Some app' /\
    status (state app') = selecting_section /\
    sections (state app') =
      JArr [JStr "General Knowledge"; JStr "Core Concepts";
            JStr "Advanced Topics"; JStr "Practice Set"] /\
    error (state app') = None.
Proof.
  intros Hreach Hfl Hmissing.
  destruct (invariant_awaiting_sections app name
              (reachable_invariant app Hreach) Hfl) as (_ & Herr & _).
  destruct (getExamSections_fallback_sections name response Hmissing)
    as [srcs Hget].
  exists srcs. eexists. cbn [dispatch]. rewrite Hfl, Hget.
  split; [reflexivity|]. split; [reflexivity|]. cbn. auto.
Qed.


End session_properties.

(** ** Examples on the sample runtime *)

Lemma session_reachable (evs : list Event) :
  reachable (runtime := sample_runtime) (session evs).
Proof.
  unfold session.
  destruct (play (runtime := sample_runtime) evs initial_app) as [app|] eqn:Hplay.
  - exact (play_reachable evs initial_app app reachable_initial Hplay).
  - exact reachable_initial.
Qed.

(** The clock of a five-question quiz after 300 ticks: the interval callback
    is disabled and the effect completes the session. *)
Lemma countdown_bounds_and_expiry_witness :
  reachable (runtime := sample_runtime) (session to_time_up) /\
  status (state (session to_time_up)) = active /\
  timeRemaining (state (session to_time_up)) = 0 /\
  dispatch (runtime := sample_runtime) interval_fires (session to_time_up)
    = None /\
  exists app',
    dispatch (runtime := sample_runtime) zero_effect (session to_time_up)
      = Some app' /\
    status (state app') = completed /\ isTimerRunning (state app') = false /\
    timeRemaining (state app') = 0.
Proof.
  pose proof (countdown_bounds_and_expiry (runtime := sample_runtime)
                (session to_time_up) (session_reachable to_time_up))
    as (_ & _ & _ & _ & Hexpiry).
  assert (status (state (session to_time_up)) = active) as Hst
    by (vm_compute; reflexivity).
  assert (timeRemaining (state (session to_time_up)) = 0) as Hzero
    by (vm_compute; reflexivity).
  destruct (Hexpiry Hst Hzero) as (Hoff & app' & Hd & Hdone & Hrun & Htime & _).
  split; [apply session_reachable|]. split; [exact Hst|].
  split; [exact Hzero|]. split; [exact Hoff|].
  exists app'. auto.
Defined.

Lemma resubmission_is_noop_witness :
  status (state (session to_answered)) = active /\
  answers (state (session to_answered)) !! 0%nat = Some (chosen 1) /\
  handleAnswerSubmit (session to_answered) = session to_answered.
Proof.
  split; [vm_compute; reflexivity|]. split; [vm_compute; reflexivity|].
  apply (resubmission_is_noop (runtime := sample_runtime)
           (session to_answered) 1%nat).
  - apply session_reachable.
  - vm_compute; reflexivity.
  - vm_compute; reflexivity.
Defined.

Lemma score_bounded_witness :
  (status (state (session to_answered)) = active /\
   score (state (session to_answered))
     <= Z.of_nat (currentQuestionIndex (state (session to_answered))) + 1) /\
  (status (state (session to_finished)) = completed /\
   score (state (session to_finished))
     <= Z.of_nat (length (questions (state (session to_finished))))).
Proof.
  assert (status (state (session to_answered)) = active) as Hactive
    by (vm_compute; reflexivity).
  assert (status (state (session to_finished)) = completed) as Hdone
    by (vm_compute; reflexivity).
  split; (split; [assumption|]).
  - exact (proj1 (score_bounded (runtime := sample_runtime)
                    (session to_answered) (session_reachable to_answered))
                 Hactive).
  - exact (proj2 (score_bounded (runtime := sample_runtime)
                    (session to_finished) (session_reachable to_finished))
                 Hdone).
Defined.


Lemma generation_failure_returns_to_selection_witness :
  in_flight (session to_generating)
    = Some (awaiting_generateQuestions "CC isc2" 5 (JStr "Security Principles")) /\
  exists app',
    dispatch (runtime := sample_runtime)
      (generateQuestions_settles (Fulfilled html_response))
      (session to_generating) = Some app' /\
    status (state app') = selecting_section /\
    questions (state app') = [] /\
    error (state app')
      = Some "Failed to generate questions. Please try again.".
Proof.
  assert (in_flight (session to_generating)
          = Some (awaiting_generateQuestions "CC isc2" 5
                    (JStr "Security Principles"))) as Hfl
    by (vm_compute; reflexivity).
  split; [exact Hfl|].
  destruct (generation_failure_returns_to_selection
              (runtime := sample_runtime) (session to_generating)
              "CC isc2" 5 (JStr "Security Principles")
              (Fulfilled html_response) geminiService.generation_error
              (session_reachable to_generating) Hfl
              (generateQuestions_malformed (runtime := sample_runtime)
                 "CC isc2" 5 (JStr "Security Principles") html_response
                 eq_refl))
    as (app' & Hd & Hst & Hqs & Herr & _).
  exists app'. auto.
Defined.

(** The claim of a non-empty message fails when the service call itself is
    rejected with an empty one: the session is back at the section page with
    [error] the empty string. *)
Lemma generation_failure_empty_message :
  reachable (runtime := sample_runtime) (session to_generating) /\
  in_flight (session to_generating)
    = Some (awaiting_generateQuestions "CC isc2" 5 (JStr "Security Principles")) /\
  geminiService.generateQuestions (runtime := sample_runtime) "CC isc2" 5
    (JStr "Security Principles") silent_rejection
    = RejectedWith {| message := "" |} /\
  (fun app' => (status (state app'), error (state app')))
    <$> dispatch (runtime := sample_runtime)
          (generateQuestions_settles silent_rejection) (session to_generating)
  = Some (selecting_section, Some "").
Proof.
  split; [apply session_reachable|]. repeat split; vm_compute; reflexivity.
Qed.

Lemma missing_sections_fall_back_witness :
  in_flight (session to_fetching) = Some (awaiting_getExamSections "CC isc2") /\
  JSON_parse (JSONRuntime := sample_runtime)
    (or_text (text domains_response) "{}") = Some domains_data /\
  no_sections_key domains_data /\
  exists app',
    dispatch (runtime := sample_runtime)
      (getExamSections_settles (Fulfilled domains_response))
      (session to_fetching) = Some app' /\
    status (state app') = selecting_section /\
    sections (state app') =
      JArr [JStr "General Knowledge"; JStr "Core Concepts";
            JStr "Advanced Topics"; JStr "Practice Set"] /\
    error (state app') = None.
Proof.
  assert (in_flight (session to_fetching)
          = Some (awaiting_getExamSections "CC isc2")) as Hfl
    by (vm_compute; reflexivity).
  split; [exact Hfl|]. split; [vm_compute; reflexivity|].
  split; [vm_compute; reflexivity|].
  destruct (missing_sections_fall_back (runtime := sample_runtime)
              (session to_fetching) "CC isc2" domains_response
              (session_reachable to_fetching) Hfl)
    as (srcs & app' & _ & Hd & Hrest).
  - vm_compute; reflexivity.
  - exists app'. auto.
Defined.

Lemma generateQuestions_returns_parsed_array_witness :
  exists qs,
    geminiService.generateQuestions (runtime := sample_runtime) "CC isc2" 5
      (JStr "Security Principles") (Fulfilled quiz_response) = Fulfilled qs /\
    length qs = 1%nat /\
    qs !! 0%nat
    = Some (<["id" := JStr "q-0"]>
              (<["text" := JStr "2+2?"]>
               (<["options" := JArr [JStr "3"; JStr "4"; JStr "5"; JStr "6"]]>
                (<["correctAnswer" := JNum 1]>
                 (<["explanation" := JStr "sum"]> ∅))))).
Proof.
  eexists. split; [vm_compute; reflexivity|].
  destruct (generateQuestions_returns_parsed_array
              (runtime := sample_runtime) "CC isc2" 5
              (JStr "Security Principles") (Fulfilled quiz_response) _
              eq_refl)
    as (response & questionsData & Hresp & Hparse & Hlen & Hitems).
  injection Hresp as <-.
  vm_compute in Hparse. injection Hparse as <-.
  split; [exact Hlen|]. exact (Hitems 0%nat _ eq_refl).
Defined.

(** The returned questions are neither counted nor inspected: asked for five
    questions, [generateQuestions] accepts a response with one, which has two
    options and 7 for its answer; and it accepts a response without text as
    the empty quiz. *)
Lemma generateQuestions_unchecked :
  (exists qs,
     geminiService.generateQuestions (runtime := sample_runtime) "CC isc2" 5
       (JStr "Security Principles") (Fulfilled short_quiz_response)
     = Fulfilled qs /\
     Z.of_nat (length qs) <> 5 /\
     forallb well_formed_question qs = false) /\
  geminiService.generateQuestions (runtime := sample_runtime) "CC isc2" 5
    (JStr "Security Principles") (Fulfilled empty_response)
  = Fulfilled [].
Proof.
  split; [|vm_compute; reflexivity].
  eexists. split; [vm_compute; reflexivity|].
  split; [discriminate | vm_compute; reflexivity].
Qed.




(** * Further properties *)

(** ** Counting correct answers *)

Lemma correct_answers_unanswered (qs : list Question) (n : nat) :
  correct_answers qs (replicate n unanswered) = 0%nat.
Proof.
  revert n. induction qs as [|q qs IH]; intros [|n]; cbn; auto.
Qed.

(** Recording an answer in an unanswered slot adds one exactly when the
    answer is the correct one. *)
Lemma correct_answers_record (qs : list Question) (slots : list Answer)
    (i k : nat) (q : Question) :
  qs !! i = Some q -> slots !! i = Some unanswered ->
  correct_answers qs (<[i := chosen k]> slots)
  = (correct_answers qs slots + if is_correct k q then 1 else 0)%nat.
Proof.
  revert slots i. induction qs as [|q0 qs IH]; intros slots i Hq Hs.
  - discriminate.
  - destruct slots as [|a slots]; [discriminate|]. destruct i as [|i].
    + cbn in Hq, Hs. injection Hq as ->. injection Hs as ->. cbn. lia.
    + cbn in Hq, Hs.
      change (<[S i := chosen k]> (a :: slots))
        with (a :: <[i := chosen k]> slots).
      cbn [correct_answers]. rewrite (IH slots i Hq Hs). lia.
Qed.

(** ** [trim] and blank strings *)

Lemma trim_start_blank (s : string) : blank s = true -> trim_start s = "".
Proof.
  induction s as [|c s IH]; cbn; [reflexivity|].
  intros [Hc Hs]%andb_true_iff. rewrite Hc. auto.
Qed.

Lemma trim_blank (s : string) : blank s = true -> trim s = "".
Proof. intros Hs. unfold trim. rewrite trim_start_blank by exact Hs. reflexivity. Qed.

Lemma trim_end_empty (s : string) : trim_end s = "" -> blank s = true.
Proof.
  induction s as [|c s IH]; cbn; [reflexivity|].
  destruct (trim_end s) eqn:Hend; [|discriminate].
  destruct (is_white_space c); [auto|discriminate].
Qed.

Lemma trim_start_empty (s : string) : trim_start s = "" -> blank s = true.
Proof.
  induction s as [|c s IH]; cbn; [reflexivity|].
  destruct (is_white_space c); [auto|discriminate].
Qed.

Lemma trim_start_not_blank (s : string) :
  blank s = false -> blank (trim_start s) = false.
Proof.
  induction s as [|c s IH]; cbn; [discriminate|].
  destruct (is_white_space c) eqn:Hc; cbn; [auto|].
  rewrite Hc. reflexivity.
Qed.

Lemma trim_empty_iff (s : string) : trim s = "" <-> blank s = true.
Proof.
  split; [|apply trim_blank].
  intros Hs. destruct (blank s) eqn:Hb; [reflexivity|].
  apply trim_start_not_blank in Hb.
  apply trim_end_empty in Hs. congruence.
Qed.

(** ** The record invariant *)

Section record_proofs.
Context {runtime : JSONRuntime}.

Lemma session_record_initial : session_record initial_app.
Proof.
  unfold session_record; cbn. repeat split; try congruence;
    intros; try lia; discriminate.
Qed.

Lemma handleAnswerSubmit_record (app : AppState) :
  session_invariant app -> session_record app ->
  status (state app) = active ->
  session_record (handleAnswerSubmit app).
Proof.
  intros [_ Hinv] Hrec Hst. rewrite Hst in Hinv.
  destruct Hinv as (_ & _ & Hlen & _ & _ & _ & Hrest & _).
  unfold handleAnswerSubmit.
  destruct (selectedOption app) as [selected|] eqn:Hsel; [|assumption].
  destruct (isAnswered app) eqn:Hans; [assumption|].
  destruct (questions (state app) !! currentQuestionIndex (state app))
    as [currentQuestion|] eqn:Hq; [|assumption].
  pose proof (lookup_lt_Some _ _ _ Hq) as Hlt.
  unfold answered_now in Hrest. rewrite Hans in Hrest.
  assert (answers (state app) !! currentQuestionIndex (state app)
          = Some unanswered) as Hslot by (apply Hrest; lia).
  destruct Hrec as (Hname & Hcall & Hsec & Hprev & Hrange & Hopt & Hscore).
  unfold answered_now in Hprev. rewrite Hans in Hprev.
  unfold session_record, listed_section, answered_now in *; cbn.
  rewrite array_set_in_range by lia. rewrite Hst in *.
  split; [exact Hname|]. split; [exact Hcall|]. split; [exact Hsec|].
  split; [|split; [|split]].
  - intros j Hj.
    destruct (decide (j = currentQuestionIndex (state app))) as [->|Hne].
    + exists selected. apply list_lookup_insert_eq. lia.
    + rewrite list_lookup_insert_ne by congruence. apply Hprev. lia.
  - intros j k.
    destruct (decide (j = currentQuestionIndex (state app))) as [->|Hne].
    + rewrite list_lookup_insert_eq by lia. intros [= <-].
      rewrite Hsel in Hopt. exact (Hopt selected eq_refl).
    + rewrite list_lookup_insert_ne by congruence. apply Hrange.
  - exact Hopt.
  - rewrite (correct_answers_record _ _ _ _ _ Hq Hslot), Hscore.
    destruct (is_correct selected currentQuestion); lia.
Qed.

Lemma handleNextQuestion_record (app : AppState) :
  session_record app -> status (state app) = active ->
  isAnswered app = true ->
  session_record (handleNextQuestion app).
Proof.
  intros (Hname & Hcall & Hsec & Hprev & Hrange & Hopt & Hscore) Hst Hans.
  unfold answered_now in Hprev. rewrite Hans in Hprev.
  unfold handleNextQuestion. destruct (_ <? _).
  - unfold session_record, listed_section, answered_now in *; cbn.
    rewrite Hst in *.
    split; [exact Hname|]. split; [exact Hcall|]. split; [exact Hsec|].
    split; [|split; [exact Hrange|split; [discriminate|exact Hscore]]].
    intros j Hj. apply Hprev. lia.
  - unfold session_record, listed_section, answered_now in *; cbn.
    rewrite Hans, Hst in *.
    split; [intros _; apply Hname; discriminate|].
    split; [exact Hcall|]. split; [exact Hsec|].
    split; [exact Hprev|]. split; [exact Hrange|]. split; assumption.
Qed.

Lemma invariant_no_call (app : AppState) :
  session_invariant app ->
  status (state app) <> fetching_sections ->
  status (state app) <> generating ->
  in_flight app = None.
Proof.
  intros [_ Hinv] Hf Hg.
  destruct (status (state app)); try contradiction; tauto.
Qed.

(** The goal [status <> idle -> ...] of a state that has left [idle]. *)
Ltac keep_name H := intros _; apply H; discriminate.

Lemma dispatch_record (ev : Event) (app app' : AppState) :
  session_invariant app -> session_record app ->
  dispatch ev app = Some app' -> session_record app'.
Proof.
  intros Hinv Hrec Hd. destruct ev; cbn [dispatch] in Hd.
  - (* change_examName *)
    apply when_Some in Hd as [Hst%status_is_true <-].
    destruct Hrec as (Hname & Hcall & Hrest).
    unfold session_record, listed_section, answered_now in *; cbn.
    destruct Hinv as [_ Hinv]. rewrite Hst in *.
    split; [congruence|]. split; [|exact Hrest].
    destruct Hinv as [-> _]. exact I.
  - (* submit_exam_form *)
    apply when_Some in Hd as [Hst%status_is_true <-].
    unfold handleFetchSections.
    destruct (String.eqb_spec (trim (examName (state app))) "")
      as [|Hne]; [assumption|].
    destruct Hrec as (Hname & Hcall & Hrest).
    unfold session_record, listed_section, answered_now in *; cbn.
    rewrite Hst in *. split; [intros _; exact Hne|].
    split; [reflexivity|]. exact Hrest.
  - (* getExamSections_settles *)
    destruct (in_flight app) as [[name|]|] eqn:Hfl; try discriminate.
    injection Hd as <-.
    destruct (invariant_awaiting_sections _ _ Hinv Hfl) as (Hst & _).
    destruct Hrec as (Hname & Hcall & Hsec & Hrest).
    unfold session_record, listed_section, answered_now in *.
    rewrite Hst in *.
    destruct (geminiService.getExamSections name api); cbn.
    + split; [keep_name Hname|]. split; [exact I|].
      split; [left; exact Hsec|]. exact Hrest.
    + split; [congruence|]. split; [exact I|]. split; [exact Hsec|].
      exact Hrest.
  - (* click_section *)
    destruct (sections (state app)) eqn:Hsections; try discriminate.
    destruct (items !! i) as [section|] eqn:Hitem; try discriminate.
    apply when_Some in Hd as [Hst%status_is_true <-].
    assert (in_flight app = None) as Hfl
      by (apply invariant_no_call; [assumption|rewrite Hst; discriminate..]).
    destruct Hrec as (Hname & Hcall & Hsec & Hrest).
    unfold session_record, listed_section, answered_now in *; cbn.
    rewrite Hst, Hfl in *. split; [exact Hname|]. split; [exact I|].
    split; [|exact Hrest]. right. eauto.
  - (* click_count *)
    apply when_Some in Hd as [Hg <-].
    apply andb_true_iff in Hg as [Hst%status_is_true _].
    exact Hrec.
  - (* click_back *)
    apply when_Some in Hd as [Hst%status_is_true <-].
    assert (in_flight app = None) as Hfl
      by (apply invariant_no_call; [assumption|rewrite Hst; discriminate..]).
    destruct Hrec as (Hname & Hcall & Hsec & Hrest).
    unfold session_record, listed_section, answered_now in *; cbn.
    rewrite Hfl. split; [congruence|]. split; [exact I|].
    split; [reflexivity|]. exact Hrest.
  - (* click_start *)
    apply when_Some in Hd as [Hg <-].
    apply andb_true_iff in Hg as [Hst%status_is_true Htruthy].
    unfold handleGenerateQuestions. rewrite Htruthy. cbn [negb].
    destruct Hrec as (Hname & Hcall & Hsec & Hrest).
    unfold session_record, listed_section, answered_now in *; cbn.
    rewrite Hst in *. split; [keep_name Hname|]. split; [auto|].
    split; [|exact Hrest]. split; [exact Htruthy|].
    destruct Hsec as [Hnull|Hlisted]; [|exact Hlisted].
    rewrite Hnull in Htruthy. discriminate.
  - (* generateQuestions_settles *)
    destruct (in_flight app) as [[|name count section]|] eqn:Hfl;
      try discriminate.
    injection Hd as <-.
    destruct (invariant_awaiting_questions _ _ _ _ Hinv Hfl)
      as (Hst & _ & _ & Hquiet).
    destruct Hquiet as (_ & _ & _ & _ & _ & Hnone & Hans).
    destruct Hrec as (Hname & Hcall & Hsec & Hrest).
    unfold session_record, listed_section, answered_now in *.
    rewrite Hst in *.
    destruct (geminiService.generateQuestions name count section api)
      as [qs|e]; cbn.
    + rewrite Hnone, Hans.
      split; [keep_name Hname|]. split; [exact I|]. split; [exact Hsec|].
      split; [intros j Hj; lia|]. split; [|split].
      * intros j k Hj. apply lookup_replicate in Hj as [[=] _].
      * discriminate.
      * rewrite correct_answers_unanswered. reflexivity.
    + split; [keep_name Hname|]. split; [exact I|].
      split; [right; exact (proj2 Hsec)|]. exact Hrest.
  - (* click_option *)
    destruct (rendered_options app) as [options|] eqn:Hopts;
      try discriminate.
    apply when_Some in Hd as [Hg <-].
    apply andb_true_iff in Hg as [Hg Hidx%bool_decide_eq_true_1].
    destruct Hrec as (Hname & Hcall & Hsec & Hprev & Hrange & _ & Hscore).
    unfold session_record, listed_section, answered_now in *; cbn.
    split; [exact Hname|]. split; [exact Hcall|]. split; [exact Hsec|].
    split; [exact Hprev|]. split; [exact Hrange|]. split; [|exact Hscore].
    intros selected [= <-]. unfold rendered_options in Hopts.
    destruct (questions (state app) !! currentQuestionIndex (state app))
      as [q|]; [|discriminate].
    exists q. split; [reflexivity|]. exists options. split; [|exact Hidx].
    destruct (q !! "options") as [[]|]; congruence.
  - (* click_submit *)
    apply when_Some in Hd as [Hg <-].
    apply andb_true_iff in Hg as [Hg _].
    apply andb_true_iff in Hg as [Hst%status_is_true _].
    apply handleAnswerSubmit_record; assumption.
  - (* click_next *)
    apply when_Some in Hd as [Hg <-].
    apply andb_true_iff in Hg as [Hst%status_is_true Hans].
    apply handleNextQuestion_record; assumption.
  - (* click_pause *)
    apply when_Some in Hd as [_ <-]. exact Hrec.
  - (* interval_fires *)
    destruct (timer_effect (state app)); try discriminate.
    injection Hd as <-. exact Hrec.
  - (* zero_effect *)
    destruct (timer_effect (state app)) eqn:Heff; try discriminate.
    injection Hd as <-. apply timer_effect_force in Heff as [Hst _].
    destruct Hrec as (Hname & Hcall & Hsec & Hrest).
    unfold session_record, listed_section, answered_now in *; cbn.
    rewrite Hst in *. split; [keep_name Hname|]. split; [exact Hcall|].
    split; [exact Hsec|]. exact Hrest.
  - (* click_try_another *)
    apply when_Some in Hd as [Hst%status_is_true <-].
    destruct Hinv as [_ Hinv]. rewrite Hst in Hinv. destruct Hinv as [Hfl _].
    unfold session_record, answered_now; cbn. rewrite Hfl.
    repeat split; try congruence; intros; try lia; discriminate.
Qed.

Lemma reachable_record (app : AppState) :
  reachable app -> session_record app.
Proof.
  induction 1 as [|ev app app' Hreach IH Hd].
  - exact session_record_initial.
  - exact (dispatch_record ev app app' (reachable_invariant app Hreach) IH Hd).
Qed.

End record_proofs.

(** ** The service, further *)

Section service_extras.
Context {runtime : JSONRuntime}.
Import geminiService.

Lemma grounding_sources_spec (response : GenerateContentResponse)
    (w : GroundingChunkWeb) :
  w ∈ grounding_sources response <->
  has_uri (Some w) = true /\
  exists first rest metadata chunks,
    candidates response = Some (first :: rest) /\
    groundingMetadata first = Some metadata /\
    groundingChunks metadata = Some chunks /\
    {| web := Some w |} ∈ chunks.
Proof.
  unfold grounding_sources.
  destruct (candidates response) as [[|first rest]|]; cbn [mbind option_bind head].
  1,3: rewrite elem_of_nil; split; [tauto|];
       intros (_ & ? & ? & ? & ? & [=] & _).
  destruct (groundingMetadata first) as [metadata|] eqn:Hmeta;
    cbn [mbind option_bind].
  2: { rewrite elem_of_nil; split; [tauto|].
       intros (_ & ? & ? & ? & ? & [= <- <-] & Hm & _). congruence. }
  destruct (groundingChunks metadata) as [chunks|] eqn:Hchunks.
  2: { rewrite elem_of_nil; split; [tauto|].
       intros (_ & ? & ? & ? & ? & [= <- <-] & Hm & Hc & _). congruence. }
  rewrite list_elem_of_omap. split.
  - intros (o & Ho & Hkeep).
    destruct (has_uri o) eqn:Huri; [|discriminate]. subst o.
    split; [exact Huri|]. exists first, rest, metadata, chunks.
    repeat split; try assumption.
    apply list_elem_of_fmap in Ho as ([w'] & Hw & Hin).
    cbn in Hw. subst w'. exact Hin.
  - intros (Huri & first' & rest' & metadata' & chunks' & [= <- <-]
            & Hm & Hc & Hin).
    assert (metadata' = metadata) as -> by congruence.
    assert (chunks' = chunks) as -> by congruence.
    exists (Some w). rewrite Huri. split; [|reflexivity].
    apply list_elem_of_fmap. exists {| web := Some w |}. auto.
Qed.

(** X1. A "sections" member that is present and truthy is returned as it
    is, whatever it holds (an empty array included), with the first three
    grounded sources; a member that is present but falsy (null, false, 0, the
    empty string) is replaced by the fallback sections. *)
Theorem getExamSections_sections_member (name : string)
    (response : GenerateContentResponse) (fields : gmap string JSON)
    (v : JSON) :
  JSON_parse (or_text (text response) "{}") = Some (JObj fields) ->
  fields !! "sections" = Some v ->
  getExamSections name (Fulfilled response) =
  Fulfilled {| sections := if truthy v then v else fallback_sections;
               sources := take 3 (grounding_sources response) |}.
Proof.
  intros Hparse Hv. rewrite getExamSections_fulfilled, Hparse. cbn.
  rewrite Hv. reflexivity.
Qed.

(** X2. Every source [getExamSections] returns carries a non-empty uri and
    is the [web] entry of a grounding chunk of the first candidate of the
    response; chunks without a [web] entry or without a uri are left out. *)
Theorem getExamSections_sources_grounded (name : string)
    (api : Settled GenerateContentResponse) (info : SyllabusInfo)
    (w : GroundingChunkWeb) :
  getExamSections name api = Fulfilled info ->
  w ∈ sources info ->
  (exists u, uri w = Some u /\ u <> "") /\
  exists response first rest metadata chunks,
    api = Fulfilled response /\
    candidates response = Some (first :: rest) /\
    groundingMetadata first = Some metadata /\
    groundingChunks metadata = Some chunks /\
    {| web := Some w |} ∈ chunks.
Proof.
  destruct api as [response|e]; [|discriminate].
  rewrite getExamSections_fulfilled. intros [= <-] Hin.
  assert (w ∈ grounding_sources response) as Hw.
  { destruct (JSON_parse _) as [[]|]; cbn in Hin;
      try (apply elem_of_nil in Hin; contradiction);
      exact (subseteq_take 3 _ _ Hin). }
  apply grounding_sources_spec in Hw
    as (Huri & first & rest & metadata & chunks & Hrest).
  split.
  - destruct w as [t [u|]]; cbn in Huri; [|discriminate].
    exists u. split; [reflexivity|].
    intros ->. discriminate.
  - exists response, first, rest, metadata, chunks. tauto.
Qed.

(** X4. The questions [generateQuestions] returns have the ids "q-0",
    "q-1", ... by position, whatever [id] the response gave them, so no two
    questions of a quiz share an id. *)
Theorem generateQuestions_ids (name : string) (count : Z) (section : JSON)
    (api : Settled GenerateContentResponse) (qs : list Question) :
  generateQuestions name count section api = Fulfilled qs ->
  (forall (i : nat) (q : Question),
     qs !! i = Some q -> q !! "id" = Some (JStr ("q-" +:+ pretty i))) /\
  NoDup (map (fun q : Question => q !! "id") qs).
Proof.
  destruct api as [response|e]; [|discriminate].
  rewrite generateQuestions_fulfilled.
  destruct (JSON_parse _) as [[]|]; try discriminate. intros [= <-].
  assert (forall (i : nat) (q : Question),
            imap (fun (index : nat) (q : JSON) =>
                    <["id" := JStr ("q-" +:+ pretty index)]> (spread q))
                 items !! i = Some q ->
            q !! "id" = Some (JStr ("q-" +:+ pretty i))) as Hid.
  { intros i q. rewrite list_lookup_imap.
    destruct (items !! i); cbn; [|discriminate].
    intros [= <-]. apply lookup_insert_eq. }
  split; [exact Hid|].
  apply NoDup_alt. intros i j o Hi Hj.
  rewrite list_lookup_fmap in Hi, Hj.
  destruct (_ !! i) as [qi|] eqn:Hqi; [|discriminate].
  destruct (_ !! j) as [qj|] eqn:Hqj; [|discriminate].
  cbn in Hi, Hj. rewrite (Hid i qi Hqi) in Hi. rewrite (Hid j qj Hqj) in Hj.
  assert ("q-" +:+ pretty i = "q-" +:+ pretty j) as Hsame by congruence.
  apply (inj (String.append "q-")) in Hsame.
  exact (inj pretty _ _ Hsame).
Qed.

(** X5. Once the service has answered, [generateQuestions] fails exactly
    when the text (or "[]" in place of a missing or empty text) is not a
    JSON array: text that parses to an object, a string, a number, a
    boolean or null is rejected with the same fixed error as text that does
    not parse. *)
Theorem generateQuestions_rejects_non_arrays (name : string) (count : Z)
    (section : JSON) (response : GenerateContentResponse) :
  (generateQuestions name count section (Fulfilled response)
   = RejectedWith generation_error
   <-> forall items,
         JSON_parse (or_text (text response) "[]") <> Some (JArr items)) /\
  (forall e,
     generateQuestions name count section (Fulfilled response)
     = RejectedWith e -> e = generation_error).
Proof.
  rewrite generateQuestions_fulfilled.
  destruct (JSON_parse _) as [[]|]; (split; [split|]);
    try discriminate; try congruence; try reflexivity.
  intros Hne. exfalso. exact (Hne items eq_refl).
Qed.

End service_extras.

(** ** The session, further *)

Section session_extras.
Context {runtime : JSONRuntime}.

(** X3. Once the service has answered, the syllabus lookup cannot fail:
    whatever the response, the waiting session moves to [selecting_section]
    with no error, at most three sources and no section selected. Only a
    rejected service call sends it back to [idle], with the message of the
    rejection as [error] and the sections and sources it had. *)
Theorem lookup_settles_session (app : AppState) (name : string)
    (api : Settled GenerateContentResponse) :
  reachable app ->
  in_flight app = Some (awaiting_getExamSections name) ->
  exists app',
    dispatch (getExamSections_settles api) app = Some app' /\
    in_flight app' = None /\
    examName (state app') = examName (state app) /\
    selectedSection (state app') = JNull /\
    match api with
    | Fulfilled _ =>
        status (state app') = selecting_section /\
        error (state app') = None /\
        (length (sources (state app')) <= 3)%nat
    | RejectedWith e =>
        status (state app') = idle /\
        error (state app') = Some (message e) /\
        sections (state app') = sections (state app) /\
        sources (state app') = sources (state app)
    end.
Proof.
  intros Hreach Hfl.
  destruct (invariant_awaiting_sections app name
              (reachable_invariant app Hreach) Hfl) as (Hst & Herr & _).
  destruct (reachable_record app Hreach) as (_ & _ & Hsec & _).
  rewrite Hst in Hsec.
  eexists. cbn [dispatch]. rewrite Hfl. split; [reflexivity|].
  destruct api as [response|e].
  - rewrite getExamSections_fulfilled. cbn.
    repeat split; try assumption.
    destruct (JSON_parse _) as [[]|]; cbn; rewrite ?length_take; lia.
  - cbn. repeat split; assumption.
Qed.

(** X7. In [idle], submitting the form changes nothing at all (the error
    of an earlier attempt stays, no call is started) exactly when the name
    is blank: empty, or white space only. *)
Theorem blank_name_is_ignored (app : AppState) :
  status (state app) = idle ->
  (dispatch submit_exam_form app = Some app
   <-> blank (examName (state app)) = true).
Proof.
  intros Hst. cbn [dispatch]. unfold status_is. rewrite Hst. cbn [when].
  rewrite bool_decide_eq_true_2 by reflexivity.
  unfold handleFetchSections. rewrite <- trim_empty_iff.
  destruct (String.eqb_spec (trim (examName (state app))) "") as [Heq|Hne].
  - tauto.
  - split; [|contradiction]. intros [= Happ].
    apply (f_equal (fun a => status (state a))) in Happ. cbn in Happ.
    congruence.
Qed.

(** X8. Every event moves the status of a reachable session along an edge
    of the state machine: idle to fetching_sections; fetching_sections to
    selecting_section or back to idle; selecting_section to idle or
    generating; generating to active or back to selecting_section; active
    to completed; completed to idle; or it leaves the status as it is
    (never so in fetching_sections, generating and completed). *)
Theorem status_follows_edges (ev : Event) (app app' : AppState) :
  reachable app -> dispatch ev app = Some app' ->
  status_edge (status (state app)) (status (state app')) = true.
Proof.
  intros Hreach Hd. pose proof (reachable_invariant app Hreach) as Hinv.
  destruct ev; cbn [dispatch] in Hd.
  - apply when_Some in Hd as [Hst%status_is_true <-]. cbn. rewrite Hst.
    reflexivity.
  - apply when_Some in Hd as [Hst%status_is_true <-].
    unfold handleFetchSections. destruct (String.eqb _ _); cbn;
      rewrite Hst; reflexivity.
  - destruct (in_flight app) as [[name|]|] eqn:Hfl; try discriminate.
    injection Hd as <-.
    destruct (invariant_awaiting_sections _ _ Hinv Hfl) as (Hst & _).
    rewrite Hst. destruct (geminiService.getExamSections _ _); reflexivity.
  - destruct (sections (state app)); try discriminate.
    destruct (items !! i); try discriminate.
    apply when_Some in Hd as [Hst%status_is_true <-]. cbn. rewrite Hst.
    reflexivity.
  - apply when_Some in Hd as [Hg <-].
    apply andb_true_iff in Hg as [Hst%status_is_true _]. cbn. rewrite Hst.
    reflexivity.
  - apply when_Some in Hd as [Hst%status_is_true <-]. cbn. rewrite Hst.
    reflexivity.
  - apply when_Some in Hd as [Hg <-].
    apply andb_true_iff in Hg as [Hst%status_is_true _].
    unfold handleGenerateQuestions. destruct (negb _); cbn;
      rewrite Hst; reflexivity.
  - destruct (in_flight app) as [[|name count section]|] eqn:Hfl;
      try discriminate.
    injection Hd as <-.
    destruct (invariant_awaiting_questions _ _ _ _ Hinv Hfl) as (Hst & _).
    rewrite Hst.
    destruct (geminiService.generateQuestions _ _ _ _); reflexivity.
  - destruct (rendered_options app); try discriminate.
    apply when_Some in Hd as [Hg <-]. apply andb_true_iff in Hg as [Hg _].
    apply andb_true_iff in Hg as [Hst%status_is_true _]. cbn. rewrite Hst.
    reflexivity.
  - apply when_Some in Hd as [Hg <-]. apply andb_true_iff in Hg as [Hg _].
    apply andb_true_iff in Hg as [Hst%status_is_true _].
    unfold handleAnswerSubmit. destruct (selectedOption app);
      [|rewrite Hst; reflexivity].
    destruct (isAnswered app); [rewrite Hst; reflexivity|].
    destruct (_ !! _); cbn; rewrite Hst; reflexivity.
  - apply when_Some in Hd as [Hg <-].
    apply andb_true_iff in Hg as [Hst%status_is_true _].
    unfold handleNextQuestion. destruct (_ <? _); cbn; rewrite Hst;
      reflexivity.
  - apply when_Some in Hd as [Hst%status_is_true <-]. cbn. rewrite Hst.
    reflexivity.
  - destruct (timer_effect (state app)) eqn:Heff; try discriminate.
    injection Hd as <-. apply timer_effect_start in Heff as [Hst _].
    cbn. rewrite Hst. reflexivity.
  - destruct (timer_effect (state app)) eqn:Heff; try discriminate.
    injection Hd as <-. apply timer_effect_force in Heff as [Hst _].
    cbn. rewrite Hst. reflexivity.
  - apply when_Some in Hd as [Hst%status_is_true <-]. cbn. rewrite Hst.
    reflexivity.
Qed.

(** X9. A service call is awaited exactly in [fetching_sections] and
    [generating], and there nothing can happen but that call settling: the
    page has no listener and the countdown effect is idle, so a second call
    cannot be started while one is awaited. *)
Theorem awaiting_admits_settling_only (app : AppState) :
  reachable app ->
  (in_flight app <> None <->
   status (state app) = fetching_sections \/ status (state app) = generating) /\
  forall ev app',
    in_flight app <> None -> dispatch ev app = Some app' ->
    in_flight app' = None /\
    ((exists api, ev = getExamSections_settles api) /\
     status (state app) = fetching_sections
     \/ (exists api, ev = generateQuestions_settles api) /\
        status (state app) = generating).
Proof.
  intros Hreach. pose proof (reachable_invariant app Hreach) as Hinv.
  assert (in_flight app <> None <->
          status (state app) = fetching_sections
          \/ status (state app) = generating) as Hiff.
  { destruct Hinv as [_ Hinv].
    destruct (status (state app)); split;
      try (intros [|]; discriminate); try (intros _; auto; fail);
      try (intros Hne; destruct Hinv as [Hfl _]; contradiction);
      intros _.
    - destruct Hinv as [[? ->] _]. discriminate.
    - destruct Hinv as [(? & ? & ->) _]. discriminate. }
  split; [exact Hiff|]. intros ev app' Hne Hd.
  apply Hiff in Hne.
  destruct ev; cbn [dispatch] in Hd;
    try (unfold status_is in Hd; destruct Hne as [Hst|Hst]; rewrite Hst in Hd;
         cbn in Hd;
         repeat match type of Hd with
                | match ?x with _ => _ end = _ => destruct x; try discriminate
                end; discriminate).
  - destruct (in_flight app) as [[name|]|] eqn:Hfl; try discriminate.
    injection Hd as <-.
    destruct (invariant_awaiting_sections _ _ Hinv Hfl) as (Hst & _).
    split; [reflexivity|]. left. eauto.
  - destruct (in_flight app) as [[|name count section]|] eqn:Hfl;
      try discriminate.
    injection Hd as <-.
    destruct (invariant_awaiting_questions _ _ _ _ Hinv Hfl) as (Hst & _).
    split; [reflexivity|]. right. eauto.
  - rewrite timer_effect_not_active in Hd; [discriminate|].
    destruct Hne as [-> | ->]; discriminate.
  - rewrite timer_effect_not_active in Hd; [discriminate|].
    destruct Hne as [-> | ->]; discriminate.
Qed.

(** X10. When the awaited [generateQuestions] succeeds the quiz starts
    fresh: status [active] on the first question with score 0, every answer
    slot unanswered (one per question), nothing selected, no error, and the
    clock running from [questionCount * 60] seconds for the question count
    the session shows. *)
Theorem quiz_starts_fresh (app : AppState) (name : string) (count : Z)
    (section : JSON) (api : Settled GenerateContentResponse)
    (qs : list Question) :
  reachable app ->
  in_flight app = Some (awaiting_generateQuestions name count section) ->
  geminiService.generateQuestions name count section api = Fulfilled qs ->
  exists app',
    dispatch (generateQuestions_settles api) app = Some app' /\
    status (state app') = active /\
    questions (state app') = qs /\
    currentQuestionIndex (state app') = 0%nat /\
    score (state app') = 0 /\
    answers (state app') = replicate (length qs) unanswered /\
    timeRemaining (state app') = questionCount (state app') * 60 /\
    questionCount (state app') = questionCount (state app) /\
    isTimerRunning (state app') = true /\
    error (state app') = None /\
    selectedOption app' = None /\ isAnswered app' = false /\
    in_flight app' = None.
Proof.
  intros Hreach Hfl Hgen.
  destruct (invariant_awaiting_questions app name count section
              (reachable_invariant app Hreach) Hfl)
    as (_ & -> & Herr & Hquiet).
  destruct Hquiet as (_ & _ & _ & _ & _ & Hsel & Hans).
  eexists. cbn [dispatch]. rewrite Hfl, Hgen. split; [reflexivity|].
  cbn. repeat split; assumption.
Qed.

(** X11. In every reachable state the score is the number of questions
    whose recorded answer is the correct one. *)
Theorem score_counts_correct_answers (app : AppState) :
  reachable app ->
  score (state app)
  = Z.of_nat (correct_answers (questions (state app)) (answers (state app))).
Proof.
  intros Hreach.
  destruct (reachable_record app Hreach) as (_ & _ & _ & _ & _ & _ & Hscore).
  exact Hscore.
Qed.

(** X12. During and after a quiz [answers] has one slot per question and
    follows the progress: every question before the current one, and the
    current one once submitted, holds the index of one of its listed
    options; every later slot is still unanswered. No question is skipped
    and no slot is a hole. *)
Theorem answers_follow_progress (app : AppState) (j : nat) :
  reachable app ->
  status (state app) = active \/ status (state app) = completed ->
  length (answers (state app)) = length (questions (state app)) /\
  ((j < currentQuestionIndex (state app) + answered_now app)%nat ->
   exists k q,
     answers (state app) !! j = Some (chosen k) /\
     questions (state app) !! j = Some q /\ listed_option q k) /\
  ((currentQuestionIndex (state app) + answered_now app <= j)%nat ->
   (j < length (questions (state app)))%nat ->
   answers (state app) !! j = Some unanswered).
Proof.
  intros Hreach Hst.
  destruct (reachable_invariant app Hreach) as [_ Hinv].
  destruct (reachable_record app Hreach)
    as (_ & _ & _ & Hprev & Hrange & _).
  assert (in_quiz app) as (_ & Hlen & _ & _ & _ & Hrest & _)
    by (destruct Hst as [Hst|Hst]; rewrite Hst in Hinv; tauto).
  split; [exact Hlen|]. split.
  - intros Hj. destruct (Hprev j Hj) as [k Hk].
    destruct (Hrange j k Hk) as (q & Hq & Hopt). eauto.
  - intros Hj Hlt. apply Hrest; lia.
Qed.

(** X13. During the quiz only submitting an answer changes the score or
    the answers, and nothing changes the questions: selecting an option,
    moving on, pausing, a tick and the forced completion leave all three as
    they are. A submission never lowers the score, adds at most one, and
    leaves every recorded answer in place. *)
Theorem only_submit_records (ev : Event) (app app' : AppState) :
  reachable app -> status (state app) = active ->
  dispatch ev app = Some app' ->
  questions (state app') = questions (state app) /\
  (ev <> click_submit ->
   score (state app') = score (state app) /\
   answers (state app') = answers (state app)) /\
  score (state app) <= score (state app') <= score (state app) + 1 /\
  forall (j k : nat),
    answers (state app) !! j = Some (chosen k) ->
    answers (state app') !! j = Some (chosen k).
Proof.
  intros Hreach Hst Hd.
  destruct (reachable_invariant app Hreach) as [_ Hinv].
  rewrite Hst in Hinv. destruct Hinv as (Hfl & _ & Hlen & _ & _ & _ & Hrest & _).
  assert (forall a : AppState,
            questions (state a) = questions (state app) ->
            score (state a) = score (state app) ->
            answers (state a) = answers (state app) ->
            questions (state a) = questions (state app) /\
            (ev <> click_submit ->
             score (state a) = score (state app) /\
             answers (state a) = answers (state app)) /\
            score (state app) <= score (state a) <= score (state app) + 1 /\
            forall (j k : nat),
              answers (state app) !! j = Some (chosen k) ->
              answers (state a) !! j = Some (chosen k)) as Hsame.
  { intros a Hq Hs Ha. rewrite Hq, Hs, Ha. repeat split; auto; lia. }
  destruct ev; cbn [dispatch] in Hd;
    try (unfold status_is in Hd; rewrite ?Hst, ?Hfl in Hd; cbn in Hd;
         discriminate).
  - destruct (sections (state app)); try discriminate.
    destruct (items !! i); try discriminate.
    unfold status_is in Hd; rewrite Hst in Hd; discriminate.
  - destruct (rendered_options app); try discriminate.
    apply when_Some in Hd as [_ <-]. apply Hsame; reflexivity.
  - apply when_Some in Hd as [_ <-]. unfold handleAnswerSubmit.
    destruct (selectedOption app) as [selected|];
      [|apply Hsame; reflexivity].
    destruct (isAnswered app) eqn:Hans; [apply Hsame; reflexivity|].
    destruct (questions (state app) !! currentQuestionIndex (state app))
      as [q|] eqn:Hq; [|apply Hsame; reflexivity].
    apply lookup_lt_Some in Hq. cbn.
    rewrite array_set_in_range by lia.
    split; [reflexivity|]. split; [congruence|].
    split; [destruct (is_correct selected q); lia|].
    intros j k Hj.
    destruct (decide (j = currentQuestionIndex (state app))) as [->|Hne].
    + unfold answered_now in Hrest. rewrite Hans in Hrest.
      rewrite Hrest in Hj by lia. discriminate.
    + rewrite list_lookup_insert_ne by congruence. exact Hj.
  - apply when_Some in Hd as [_ <-]. apply Hsame;
      unfold handleNextQuestion; destruct (_ <? _); reflexivity.
  - apply when_Some in Hd as [_ <-]. apply Hsame; reflexivity.
  - destruct (timer_effect (state app)); try discriminate.
    injection Hd as <-. apply Hsame; reflexivity.
  - destruct (timer_effect (state app)); try discriminate.
    injection Hd as <-. apply Hsame; reflexivity.
Qed.

Lemma is_correct_iff (selected : nat) (q : Question) :
  is_correct selected q = true
  <-> q !! "correctAnswer" = Some (JNum (Z.of_nat selected)).
Proof.
  unfold is_correct. destruct (q !! "correctAnswer") as [[]|];
    try (split; [discriminate|congruence]).
  rewrite Z.eqb_eq. split; [congruence|]. intros [= <-]. reflexivity.
Qed.

(** X14. A submission is always for an option the page lists for the
    current question, whose slot was unanswered: it records that option in
    the slot, marks the question answered, and adds one to the score exactly
    when [correctAnswer] is the number of that option. A question whose
    [correctAnswer] is not the index of a listed option can therefore never
    score. *)
Theorem submit_records_selected_option (app app' : AppState) :
  reachable app -> dispatch click_submit app = Some app' ->
  exists selected q,
    selectedOption app = Some selected /\
    questions (state app) !! currentQuestionIndex (state app) = Some q /\
    listed_option q selected /\
    answers (state app) !! currentQuestionIndex (state app)
      = Some unanswered /\
    answers (state app')
      = <[currentQuestionIndex (state app) := chosen selected]>
          (answers (state app)) /\
    isAnswered app' = true /\
    (q !! "correctAnswer" = Some (JNum (Z.of_nat selected)) ->
     score (state app') = score (state app) + 1) /\
    (q !! "correctAnswer" <> Some (JNum (Z.of_nat selected)) ->
     score (state app') = score (state app)).
Proof.
  intros Hreach Hd. cbn [dispatch] in Hd.
  apply when_Some in Hd as [Hg <-].
  apply andb_true_iff in Hg as [Hg Hsel%bool_decide_eq_true_1].
  apply andb_true_iff in Hg as [Hst%status_is_true Hans%negb_true_iff].
  destruct (selectedOption app) as [selected|] eqn:Hselected;
    [|contradiction].
  destruct (reachable_record app Hreach) as (_ & _ & _ & _ & _ & Hopt & _).
  destruct (Hopt selected Hselected) as (q & Hq & Hlisted).
  destruct (reachable_invariant app Hreach) as [_ Hinv].
  rewrite Hst in Hinv. destruct Hinv as (_ & _ & Hlen & _ & _ & _ & Hrest & _).
  unfold answered_now in Hrest. rewrite Hans in Hrest.
  pose proof (lookup_lt_Some _ _ _ Hq) as Hlt.
  exists selected, q. unfold handleAnswerSubmit.
  rewrite Hselected, Hans, Hq. cbn. rewrite array_set_in_range by lia.
  repeat split; try assumption.
  - apply Hrest; lia.
  - intros Hc%is_correct_iff. rewrite Hc. reflexivity.
  - intros Hc. destruct (is_correct selected q) eqn:Hcorrect; [|reflexivity].
    apply is_correct_iff in Hcorrect. contradiction.
Qed.

(** X15. The next button works only on an answered question. Before the
    last question it moves to the next one, which is unanswered, with
    nothing selected; on the last question it completes the session, and
    then every question has a recorded answer. Either way score, answers
    and clock stay as they are. *)
Theorem next_moves_on_or_finishes (app app' : AppState) :
  reachable app -> dispatch click_next app = Some app' ->
  let st := state app in
  let st' := state app' in
  (exists k, answers st !! currentQuestionIndex st = Some (chosen k)) /\
  score st' = score st /\ answers st' = answers st /\
  timeRemaining st' = timeRemaining st /\
  ((currentQuestionIndex st + 1 < length (questions st))%nat /\
   status st' = active /\
   currentQuestionIndex st' = (currentQuestionIndex st + 1)%nat /\
   selectedOption app' = None /\ isAnswered app' = false /\
   answers st' !! currentQuestionIndex st' = Some unanswered
   \/
   (currentQuestionIndex st + 1 = length (questions st))%nat /\
   status st' = completed /\
   currentQuestionIndex st' = currentQuestionIndex st /\
   forall j : nat,
     (j < length (questions st))%nat ->
     exists k, answers st' !! j = Some (chosen k)).
Proof.
  intros Hreach Hd st st'. subst st st'. cbn [dispatch] in Hd.
  apply when_Some in Hd as [Hg <-].
  apply andb_true_iff in Hg as [Hst%status_is_true Hans].
  destruct (reachable_invariant app Hreach) as [_ Hinv].
  rewrite Hst in Hinv.
  destruct Hinv as (_ & _ & Hlen & _ & _ & Hanswered & Hrest & _).
  destruct (Hanswered Hans) as (selected & _ & Hslot).
  pose proof (lookup_lt_Some _ _ _ Hslot) as Hlt.
  destruct (reachable_record app Hreach) as (_ & _ & _ & Hprev & _).
  unfold answered_now in Hrest, Hprev. rewrite Hans in Hrest, Hprev.
  unfold handleNextQuestion.
  destruct (Z.ltb_spec (Z.of_nat (currentQuestionIndex (state app)))
              (Z.of_nat (length (questions (state app))) - 1)) as [Hmore|Hlast];
    cbn.
  - split; [eauto|]. repeat split. left.
    split; [lia|]. split; [exact Hst|]. repeat split. apply Hrest; lia.
  - split; [eauto|]. repeat split. right.
    split; [lia|]. repeat split. intros j Hj. apply Hprev. lia.
Qed.

(** X16. The selected section is always [null] or one of the entries of
    [sections]: it is [null] in [idle] and [fetching_sections], and a
    truthy entry of [sections] from [generating] on, so a quiz is only ever
    generated for a section of the syllabus on the page. *)
Theorem selected_section_is_listed (app : AppState) :
  reachable app ->
  let st := state app in
  (selectedSection st = JNull \/ listed_section st (selectedSection st)) /\
  (status st = idle \/ status st = fetching_sections ->
   selectedSection st = JNull) /\
  (status st = generating \/ status st = active \/ status st = completed ->
   truthy (selectedSection st) = true /\
   listed_section st (selectedSection st)).
Proof.
  intros Hreach st. subst st.
  destruct (reachable_record app Hreach) as (_ & _ & Hsec & _).
  split; [|split].
  - destruct (status (state app)); tauto.
  - intros [Hst|Hst]; rewrite Hst in Hsec; exact Hsec.
  - intros [Hst|[Hst|Hst]]; rewrite Hst in Hsec; exact Hsec.
Qed.

(** X17. Past [idle] the exam name is not blank, and an awaited call was
    made for what the session shows: the syllabus for its exam name; the
    questions for its exam name, its question count and its selected
    section. *)
Theorem awaited_call_matches_session (app : AppState) :
  reachable app ->
  let st := state app in
  (status st <> idle -> blank (examName st) = false) /\
  match in_flight app with
  | Some (awaiting_getExamSections name) =>
      status st = fetching_sections /\ name = examName st
  | Some (awaiting_generateQuestions name count section) =>
      status st = generating /\ name = examName st /\
      count = questionCount st /\ section = selectedSection st
  | None => True
  end.
Proof.
  intros Hreach st. subst st.
  pose proof (reachable_invariant app Hreach) as Hinv.
  destruct (reachable_record app Hreach) as (Hname & Hcall & _).
  split.
  - intros Hst. specialize (Hname Hst).
    destruct (blank (examName (state app))) eqn:Hb; [|reflexivity].
    apply trim_empty_iff in Hb. contradiction.
  - destruct (in_flight app) as [[name|name count section]|] eqn:Hfl;
      [| |exact I].
    + destruct (invariant_awaiting_sections _ _ Hinv Hfl) as (Hst & _).
      auto.
    + destruct (invariant_awaiting_questions _ _ _ _ Hinv Hfl)
        as (Hst & Hcount & _).
      tauto.
Qed.

(** X20. The reset button of a completed session puts the whole component
    back into the state it was first mounted in. *)
Theorem reset_restarts (app : AppState) :
  reachable app -> status (state app) = completed ->
  dispatch click_try_another app = Some initial_app.
Proof.
  intros Hreach Hst. destruct (reachable_invariant app Hreach) as [_ Hinv].
  rewrite Hst in Hinv. destruct Hinv as [Hfl _].
  cbn [dispatch]. unfold status_is. rewrite Hst. cbn.
  unfold resetQuiz, setIsAnswered, setSelectedOption, setState; cbn.
  rewrite Hfl. reflexivity.
Qed.

(** X23. The question count of a reachable session is one of 5, 10, 20 and
    50, so the clock never shows more than 3000 seconds. *)
Theorem questionCount_from_menu (app : AppState) :
  reachable app ->
  questionCount (state app) ∈ [5; 10; 20; 50] /\
  0 <= timeRemaining (state app) <= 3000.
Proof.
  intros Hreach. destruct (reachable_invariant app Hreach) as [Hmenu Hinv].
  split; [exact Hmenu|].
  assert (0 <= questionCount (state app) <= 50) as Hcount.
  { unfold count_menu in Hmenu.
    rewrite !elem_of_cons, elem_of_nil in Hmenu. lia. }
  unfold before_quiz, in_quiz in Hinv.
  destruct (status (state app)); intuition lia.
Qed.

End session_extras.

(** ** The countdown, further *)

Section countdown_extras.
Context {runtime : JSONRuntime}.

Lemma setState_id (app : AppState) (f : QuizState -> QuizState) :
  f (state app) = state app -> setState f app = app.
Proof.
  destruct app as [st sel ans fl]. unfold setState. cbn.
  intros Hf. rewrite Hf. reflexivity.
Qed.

Lemma set_timeRemaining_same (st : QuizState) :
  set_timeRemaining (timeRemaining st) st = st.
Proof. destruct st; reflexivity. Qed.

(** X18. A running countdown that is left alone ticks exactly as many
    times as it has seconds: after [n] ticks, [n] at most the remaining
    time, the clock is [n] lower and nothing else has changed; a tick past
    zero does not happen. *)
Theorem countdown_ticks (n : nat) (app : AppState) :
  status (state app) = active -> isTimerRunning (state app) = true ->
  0 <= timeRemaining (state app) ->
  (Z.of_nat n <= timeRemaining (state app) ->
   play (replicate n interval_fires) app
   = Some (setState (set_timeRemaining (timeRemaining (state app) - Z.of_nat n))
                    app)) /\
  (timeRemaining (state app) < Z.of_nat n ->
   play (replicate n interval_fires) app = None).
Proof.
  revert app. induction n as [|n IH]; intros app Hst Hrun Hpos.
  - split; [|lia]. intros _. cbn [replicate play]. f_equal. symmetry.
    apply setState_id. rewrite Z.sub_0_r. apply set_timeRemaining_same.
  - cbn [replicate play dispatch].
    destruct (Z.eq_dec (timeRemaining (state app)) 0) as [Hzero|Hmore].
    + replace (timer_effect (state app)) with force_completed
        by (symmetry; apply timer_effect_force; auto).
      split; [lia|reflexivity].
    + replace (timer_effect (state app)) with start_interval
        by (symmetry; apply timer_effect_start; repeat split; auto; lia).
      destruct (IH (setState tick app)) as [Hle Hgt]; cbn; auto; [lia|].
      cbn in Hle, Hgt. split.
      * intros Hn. rewrite Hle by lia.
        unfold setState, tick, set_timeRemaining; cbn.
        do 3 f_equal. lia.
      * intros Hn. apply Hgt. lia.
Qed.

(** X19. Pausing a running quiz keeps the remaining time and stops the
    clock: while paused there is no tick and no forced completion, and
    pressing the button again gives back the state before the pause. *)
Theorem pause_stops_clock (app : AppState) :
  status (state app) = active -> isTimerRunning (state app) = true ->
  0 < timeRemaining (state app) ->
  exists paused,
    dispatch click_pause app = Some paused /\
    isTimerRunning (state paused) = false /\
    timeRemaining (state paused) = timeRemaining (state app) /\
    status (state paused) = active /\
    dispatch interval_fires paused = None /\
    dispatch zero_effect paused = None /\
    dispatch click_pause paused = Some app.
Proof.
  intros Hst Hrun Hpos. eexists. cbn [dispatch]. unfold status_is.
  rewrite Hst. rewrite bool_decide_eq_true_2 by reflexivity. cbn [when].
  split; [reflexivity|]. cbn. rewrite Hrun, Hst. cbn.
  rewrite bool_decide_eq_true_2 by reflexivity. cbn [when].
  assert (timer_effect
            (set_isTimerRunning false (state app)) = no_effect) as ->.
  { unfold timer_effect. cbn. rewrite Hst.
    destruct (Z.eqb_spec (timeRemaining (state app)) 0); [lia|].
    rewrite andb_false_r. reflexivity. }
  repeat split. f_equal. destruct app as [[] ? ? ?]; cbn in *.
  subst. reflexivity.
Qed.

End countdown_extras.

(** ** [formatTime] *)

Lemma append_length (s t : string) :
  String.length (s +:+ t) = (String.length s + String.length t)%nat.
Proof.
  induction s as [|c s IH]; simpl; [reflexivity|]. f_equal. exact IH.
Qed.

Lemma append_inj_same_length (s1 s2 t1 t2 : string) :
  String.length t1 = String.length t2 ->
  s1 +:+ t1 = s2 +:+ t2 -> s1 = s2 /\ t1 = t2.
Proof.
  revert s2. induction s1 as [|c s1 IH]; intros [|c2 s2] Hlen Heq.
  - auto.
  - apply (f_equal String.length) in Heq.
    rewrite !append_length in Heq. simpl in Heq. lia.
  - apply (f_equal String.length) in Heq.
    rewrite !append_length in Heq. simpl in Heq. lia.
  - simpl in Heq. injection Heq as -> Heq.
    destruct (IH s2 Hlen Heq) as [-> ->]. auto.
Qed.

(** The decimal text of a number below sixty, padded to two places, is its
    tens digit followed by its units digit. *)
Lemma padStart2_two_digits (r : Z) :
  0 <= r < 60 ->
  padStart2 (pretty r) = pretty (r / 10) +:+ pretty (r mod 10) /\
  String.length (pretty (r / 10)) = 1%nat /\
  String.length (pretty (r mod 10)) = 1%nat.
Proof.
  intros Hr. replace r with (Z.of_nat (Z.to_nat r)) by lia.
  assert (Z.to_nat r < 60)%nat as Hk by lia.
  revert Hk. generalize (Z.to_nat r). clear. intros k Hk.
  do 60 (destruct k as [|k]; [vm_compute; auto|]). lia.
Qed.

(** X21. For a non-negative number of seconds [formatTime] prints the whole
    minutes in decimal, a colon, and the remaining seconds on exactly two
    digits, the tens digit being 0 below ten. *)
Theorem formatTime_minutes_and_two_digits (seconds : Z) :
  0 <= seconds < 2 ^ 53 ->
  formatTime seconds
  = pretty (seconds / 60) +:+ ":"
    +:+ pretty (seconds mod 60 / 10) +:+ pretty (seconds mod 60 mod 10).
Proof.
  intros Hs. unfold formatTime. rewrite Z.rem_mod_nonneg by lia.
  destruct (padStart2_two_digits (seconds mod 60)) as (-> & _);
    [apply Z.mod_pos_bound; lia|].
  reflexivity.
Qed.

(** X22. Different non-negative times are displayed differently. *)
Theorem formatTime_inj (a b : Z) :
  0 <= a < 2 ^ 53 -> 0 <= b < 2 ^ 53 ->
  formatTime a = formatTime b -> a = b.
Proof.
  intros Ha Hb. unfold formatTime.
  rewrite !Z.rem_mod_nonneg by lia.
  pose proof (Z.mod_pos_bound a 60 ltac:(lia)) as Hra.
  pose proof (Z.mod_pos_bound b 60 ltac:(lia)) as Hrb.
  destruct (padStart2_two_digits (a mod 60) Hra) as (-> & Ha1 & Ha0).
  destruct (padStart2_two_digits (b mod 60) Hrb) as (-> & Hb1 & Hb0).
  intros Heq.
  apply append_inj_same_length in Heq as [Hmins Heq];
    [|rewrite !append_length; congruence].
  apply append_inj_same_length in Heq as [_ Heq];
    [|rewrite !append_length; congruence].
  apply append_inj_same_length in Heq as [Htens Hunits];
    [|congruence].
  apply (inj pretty) in Hmins, Htens, Hunits.
  rewrite (Z.div_mod a 60), (Z.div_mod b 60) by lia.
  rewrite (Z.div_mod (a mod 60) 10), (Z.div_mod (b mod 60) 10) by lia.
  congruence.
Qed.

(** ** Further examples on the sample runtime *)

Lemma getExamSections_sections_member_witness :
  geminiService.getExamSections (runtime := sample_runtime) "CC isc2"
    (Fulfilled sections_response)
  = Fulfilled
      {| geminiService.sections :=
           JArr [JStr "Security Principles"; JStr "Access Controls"];
         geminiService.sources := replicate 3 official_source |}.
Proof.
  exact (getExamSections_sections_member (runtime := sample_runtime)
           "CC isc2" sections_response
           {[ "sections" := JArr [JStr "Security Principles";
                                  JStr "Access Controls"] ]}
           (JArr [JStr "Security Principles"; JStr "Access Controls"])
           eq_refl eq_refl).
Defined.

Lemma getExamSections_sources_grounded_witness :
  exists u, uri official_source = Some u /\ u <> "".
Proof.
  refine (proj1 (getExamSections_sources_grounded (runtime := sample_runtime)
                   "CC isc2" (Fulfilled sections_response)
                   {| geminiService.sections :=
                        JArr [JStr "Security Principles";
                              JStr "Access Controls"];
                      geminiService.sources := replicate 3 official_source |}
                   official_source eq_refl _)).
  apply list_elem_of_here.
Defined.

Lemma generateQuestions_ids_witness :
  exists qs,
    geminiService.generateQuestions (runtime := sample_runtime) "CC isc2" 5
      (JStr "Security Principles") (Fulfilled quiz_response) = Fulfilled qs /\
    NoDup (map (fun q : Question => q !! "id") qs).
Proof.
  eexists. split; [vm_compute; reflexivity|].
  exact (proj2 (generateQuestions_ids (runtime := sample_runtime) "CC isc2" 5
                  (JStr "Security Principles") (Fulfilled quiz_response) _
                  eq_refl)).
Defined.

Lemma generateQuestions_rejects_non_arrays_witness :
  JSON_parse (JSONRuntime := sample_runtime)
    (or_text (text domains_response) "[]") = Some domains_data /\
  geminiService.generateQuestions (runtime := sample_runtime) "CC isc2" 5
    (JStr "Security Principles") (Fulfilled domains_response)
  = RejectedWith geminiService.generation_error.
Proof.
  split; [vm_compute; reflexivity|].
  apply (proj1 (generateQuestions_rejects_non_arrays
                  (runtime := sample_runtime) "CC isc2" 5
                  (JStr "Security Principles") domains_response)).
  intros items. vm_compute. discriminate.
Defined.

Lemma lookup_settles_session_witness :
  in_flight (session to_fetching) = Some (awaiting_getExamSections "CC isc2") /\
  exists app',
    dispatch (runtime := sample_runtime)
      (getExamSections_settles (RejectedWith {| message := "fetch failed" |}))
      (session to_fetching) = Some app' /\
    status (state app') = idle /\
    error (state app') = Some "fetch failed".
Proof.
  assert (in_flight (session to_fetching)
          = Some (awaiting_getExamSections "CC isc2")) as Hfl
    by (vm_compute; reflexivity).
  split; [exact Hfl|].
  destruct (lookup_settles_session (runtime := sample_runtime)
              (session to_fetching) "CC isc2"
              (RejectedWith {| message := "fetch failed" |})
              (session_reachable to_fetching) Hfl)
    as (app' & Hd & _ & _ & _ & Hst & Herr & _).
  exists app'. auto.
Defined.

Lemma blank_name_is_ignored_witness :
  blank (examName (state (session to_blank_name))) = true /\
  dispatch (runtime := sample_runtime) submit_exam_form (session to_blank_name)
  = Some (session to_blank_name).
Proof.
  split; [vm_compute; reflexivity|].
  apply (blank_name_is_ignored (runtime := sample_runtime)
           (session to_blank_name)).
  - vm_compute; reflexivity.
  - vm_compute; reflexivity.
Defined.

Lemma status_follows_edges_witness :
  status (state (session to_generating)) = generating /\
  status (state (session to_active)) = active /\
  status_edge (status (state (session to_generating)))
              (status (state (session to_active))) = true.
Proof.
  split; [vm_compute; reflexivity|]. split; [vm_compute; reflexivity|].
  apply (status_follows_edges (runtime := sample_runtime)
           (generateQuestions_settles (Fulfilled quiz_response))
           (session to_generating) (session to_active)).
  - apply session_reachable.
  - vm_compute; reflexivity.
Defined.

Lemma awaiting_admits_settling_only_witness :
  in_flight (session to_generating) <> None /\
  status (state (session to_generating)) = generating /\
  in_flight (session to_active) = None.
Proof.
  assert (in_flight (session to_generating) <> None) as Hne
    by (vm_compute; discriminate).
  split; [exact Hne|]. split; [vm_compute; reflexivity|].
  destruct (awaiting_admits_settling_only (runtime := sample_runtime)
              (session to_generating) (session_reachable to_generating))
    as [_ Honly].
  apply (Honly (generateQuestions_settles (Fulfilled quiz_response))
               (session to_active) Hne).
  vm_compute; reflexivity.
Defined.

Lemma quiz_starts_fresh_witness :
  exists app',
    dispatch (runtime := sample_runtime)
      (generateQuestions_settles (Fulfilled quiz_response))
      (session to_generating) = Some app' /\
    status (state app') = active /\
    answers (state app') = [unanswered] /\
    timeRemaining (state app') = 300 /\
    isTimerRunning (state app') = true.
Proof.
  destruct (quiz_starts_fresh (runtime := sample_runtime)
              (session to_generating) "CC isc2" 5 (JStr "Security Principles")
              (Fulfilled quiz_response) _ (session_reachable to_generating)
              eq_refl eq_refl)
    as (app' & Hd & Hst & _ & _ & _ & Hans & Htime & Hcount & Hrun & _).
  exists app'. split; [exact Hd|]. split; [exact Hst|].
  split; [exact Hans|]. split; [|exact Hrun].
  rewrite Htime, Hcount. vm_compute; reflexivity.
Defined.

Lemma score_counts_correct_answers_witness :
  score (state (session to_answered)) = 1 /\
  correct_answers (questions (state (session to_answered)))
                  (answers (state (session to_answered))) = 1%nat /\
  score (state (session to_wrong_answer)) = 0.
Proof.
  split; [vm_compute; reflexivity|]. split; [vm_compute; reflexivity|].
  rewrite (score_counts_correct_answers (runtime := sample_runtime)
             (session to_wrong_answer) (session_reachable to_wrong_answer)).
  vm_compute; reflexivity.
Defined.

Lemma answers_follow_progress_witness :
  status (state (session to_answered)) = active /\
  length (answers (state (session to_answered))) = 1%nat /\
  exists k q,
    answers (state (session to_answered)) !! 0%nat = Some (chosen k) /\
    questions (state (session to_answered)) !! 0%nat = Some q /\
    listed_option q k.
Proof.
  assert (status (state (session to_answered)) = active) as Hst
    by (vm_compute; reflexivity).
  split; [exact Hst|].
  destruct (answers_follow_progress (runtime := sample_runtime)
              (session to_answered) 0%nat (session_reachable to_answered)
              (or_introl Hst)) as (Hlen & Hdone & _).
  split; [rewrite Hlen; vm_compute; reflexivity|].
  apply Hdone. vm_compute. lia.
Defined.

Lemma only_submit_records_witness :
  status (state (session to_answered)) = active /\
  answers (state (session to_answered)) !! 0%nat = Some (chosen 1) /\
  answers (state (session to_finished)) !! 0%nat = Some (chosen 1) /\
  score (state (session to_finished)) = score (state (session to_answered)).
Proof.
  assert (status (state (session to_answered)) = active) as Hst
    by (vm_compute; reflexivity).
  assert (answers (state (session to_answered)) !! 0%nat = Some (chosen 1))
    as Hslot by (vm_compute; reflexivity).
  destruct (only_submit_records (runtime := sample_runtime) click_next
              (session to_answered) (session to_finished)
              (session_reachable to_answered) Hst)
    as (_ & Hsame & _ & Hkept); [vm_compute; reflexivity|].
  split; [exact Hst|]. split; [exact Hslot|].
  split; [exact (Hkept 0%nat 1%nat Hslot)|].
  apply Hsame. discriminate.
Defined.

Lemma submit_records_selected_option_witness :
  exists (selected : nat) (q : Question),
    selectedOption (session (to_active ++ [click_option 1%nat]))
      = Some selected /\
    q !! "correctAnswer" = Some (JNum (Z.of_nat selected)) /\
    score (state (session to_answered))
      = score (state (session (to_active ++ [click_option 1%nat]))) + 1.
Proof.
  destruct (submit_records_selected_option (runtime := sample_runtime)
              (session (to_active ++ [click_option 1%nat]))
              (session to_answered)
              (session_reachable (to_active ++ [click_option 1%nat])))
    as (selected & q & Hsel & Hq & _ & _ & _ & _ & Hright & _);
    [vm_compute; reflexivity|].
  assert (selected = 1%nat) as -> by (vm_compute in Hsel; congruence).
  assert (q !! "correctAnswer" = Some (JNum 1)) as Hc.
  { vm_compute in Hq. injection Hq as <-. vm_compute. reflexivity. }
  exists 1%nat, q. split; [exact Hsel|]. split; [exact Hc|].
  exact (Hright Hc).
Defined.

Lemma next_moves_on_or_finishes_witness :
  status (state (session to_finished)) = completed /\
  exists k, answers (state (session to_answered)) !! 0%nat = Some (chosen k).
Proof.
  split; [vm_compute; reflexivity|].
  destruct (next_moves_on_or_finishes (runtime := sample_runtime)
              (session to_answered) (session to_finished)
              (session_reachable to_answered))
    as (Hanswered & _); [vm_compute; reflexivity|].
  exact Hanswered.
Defined.

Lemma selected_section_is_listed_witness :
  status (state (session to_active)) = active /\
  selectedSection (state (session to_active)) = JStr "Security Principles" /\
  listed_section (state (session to_active))
                 (selectedSection (state (session to_active))).
Proof.
  assert (status (state (session to_active)) = active) as Hst
    by (vm_compute; reflexivity).
  split; [exact Hst|]. split; [vm_compute; reflexivity|].
  destruct (selected_section_is_listed (runtime := sample_runtime)
              (session to_active) (session_reachable to_active))
    as (_ & _ & Hquiz).
  exact (proj2 (Hquiz (or_intror (or_introl Hst)))).
Defined.

Lemma awaited_call_matches_session_witness :
  status (state (session to_generating)) <> idle /\
  blank (examName (state (session to_generating))) = false.
Proof.
  assert (status (state (session to_generating)) <> idle) as Hst
    by (vm_compute; discriminate).
  split; [exact Hst|].
  exact (proj1 (awaited_call_matches_session (runtime := sample_runtime)
                  (session to_generating) (session_reachable to_generating))
               Hst).
Defined.

Lemma reset_restarts_witness :
  status (state (session to_finished)) = completed /\
  dispatch (runtime := sample_runtime) click_try_another (session to_finished)
  = Some initial_app.
Proof.
  assert (status (state (session to_finished)) = completed) as Hst
    by (vm_compute; reflexivity).
  split; [exact Hst|].
  exact (reset_restarts (runtime := sample_runtime) (session to_finished)
           (session_reachable to_finished) Hst).
Defined.

Lemma questionCount_from_menu_witness :
  questionCount (state (session to_active)) = 5 /\
  0 <= timeRemaining (state (session to_active)) <= 3000.
Proof.
  split; [vm_compute; reflexivity|].
  exact (proj2 (questionCount_from_menu (runtime := sample_runtime)
                  (session to_active) (session_reachable to_active))).
Defined.

Lemma countdown_ticks_witness :
  timeRemaining (state (session to_active)) = 300 /\
  play (runtime := sample_runtime) (replicate 301 interval_fires)
       (session to_active) = None /\
  (timeRemaining ∘ state)
    <$> play (runtime := sample_runtime) (replicate 300 interval_fires)
             (session to_active)
  = Some 0.
Proof.
  assert (timeRemaining (state (session to_active)) = 300) as Htime
    by (vm_compute; reflexivity).
  split; [exact Htime|].
  assert (status (state (session to_active)) = active) as Hst
    by (vm_compute; reflexivity).
  assert (isTimerRunning (state (session to_active)) = true) as Hrun
    by (vm_compute; reflexivity).
  split.
  - apply (proj2 (countdown_ticks (runtime := sample_runtime) 301
                    (session to_active) Hst Hrun
                    ltac:(rewrite Htime; lia))).
    rewrite Htime. lia.
  - rewrite (proj1 (countdown_ticks (runtime := sample_runtime) 300
                      (session to_active) Hst Hrun
                      ltac:(rewrite Htime; lia)))
      by (rewrite Htime; lia).
    vm_compute; reflexivity.
Defined.

Lemma pause_stops_clock_witness :
  exists paused,
    dispatch (runtime := sample_runtime) click_pause (session to_active)
      = Some paused /\
    timeRemaining (state paused) = 300 /\
    dispatch (runtime := sample_runtime) interval_fires paused = None /\
    dispatch (runtime := sample_runtime) click_pause paused
      = Some (session to_active).
Proof.
  destruct (pause_stops_clock (runtime := sample_runtime) (session to_active))
    as (paused & Hd & _ & Htime & _ & Htick & _ & Hback);
    try (vm_compute; reflexivity).
  exists paused. split; [exact Hd|]. split; [|auto].
  rewrite Htime. vm_compute; reflexivity.
Defined.

Lemma safe_seconds_65 : 0 <= 65 < 2 ^ 53.
Proof. split; [discriminate|reflexivity]. Qed.

Lemma safe_seconds_66 : 0 <= 66 < 2 ^ 53.
Proof. split; [discriminate|reflexivity]. Qed.

Lemma formatTime_minutes_and_two_digits_witness : formatTime 65 = "1:05".
Proof.
  rewrite (formatTime_minutes_and_two_digits 65 safe_seconds_65).
  vm_compute; reflexivity.
Defined.

Lemma formatTime_inj_witness : formatTime 65 <> formatTime 66.
Proof.
  intros Hsame.
  pose proof (formatTime_inj 65 66 safe_seconds_65 safe_seconds_66 Hsame).
  discriminate.
Defined.
